(** * KnowledgeManager: a shallow embedding of [dummy_project/src/utils.py]

    The Python class [KnowledgeManager] keeps articles as pairs of files
    below a base directory: [articles/<id>.md] holds the body text and
    [metadata/<id>.json] a JSON record.  This development models the two
    directories as finite maps from file names to file contents, the local
    clock as a sequence of readings, and the four methods as computations in
    a state-and-exception monad over that world.

    Modelling conventions.
    - Python [str] values are [string]s; a character is a code point below
      256, and text encoding is transparent.
    - Files are opened in text mode with the default [newline=None] on a
      platform whose line separator is a line feed: writing stores the text as
      it is, reading translates carriage returns ([universal_newlines]).
    - [json.dump] and [json.load] are modelled by the value they exchange
      ([Doc v]); a file that is not a JSON document is [NotJson].
    - Article identifiers are file-name components (no path separators). *)

From Stdlib Require Import Ascii String.
From stdpp Require Import base strings list gmap.

Local Open Scope string_scope.
Set Warnings "-register-all".

(** ** Python strings *)

Module PyStr.

Definition LF : ascii := "010"%char.
Definition CR : ascii := "013"%char.
Definition NL : string := String LF "".

(** [str.lower()] on code points below 256: the capital letters are
    A to Z and the Latin-1 capitals U+00C0 to U+00DE without U+00D7. *)
Definition is_upper (n : nat) : bool :=
  (((65 <=? n) && (n <=? 90)) ||
   ((192 <=? n) && (n <=? 222) && negb (n =? 215)))%nat.

Definition lower_char (c : ascii) : ascii :=
  let n := nat_of_ascii c in
  if is_upper n then ascii_of_nat (n + 32) else c.

Fixpoint lower (s : string) : string :=
  match s with
  | "" => ""
  | String c s' => String (lower_char c) (lower s')
  end.

(** [s.startswith(p)] *)
Fixpoint startswith (p s : string) : bool :=
  match p, s with
  | "", _ => true
  | String a p', String b s' => if decide (a = b) then startswith p' s' else false
  | String _ _, "" => false
  end.

(** [needle in hay] for two [str] values: substring test. *)
Fixpoint contains (needle hay : string) : bool :=
  startswith needle hay ||
  match hay with
  | "" => false
  | String _ hay' => contains needle hay'
  end.

(** [s[:n]] for [0 <= n]. *)
Fixpoint take (n : nat) (s : string) : string :=
  match n, s with
  | S n', String c s' => String c (take n' s')
  | _, _ => ""
  end.

(** [s[n:]] for [0 <= n]. *)
Fixpoint drop (n : nat) (s : string) : string :=
  match n, s with
  | S n', String _ s' => drop n' s'
  | _, _ => s
  end.

(** [s.endswith(suf)] *)
Definition endswith (suf s : string) : bool :=
  (String.length suf <=? String.length s)%nat &&
  bool_decide (drop (String.length s - String.length suf) s = suf).

(** [s[:-n]] for [0 < n]: everything but the last [n] characters. *)
Definition drop_last (n : nat) (s : string) : string :=
  take (String.length s - n) s.

(** Text-mode decoding of line ends ([newline=None]): a carriage return,
    alone or followed by a line feed, is read as one line feed. *)
Fixpoint universal_newlines (s : string) : string :=
  match s with
  | "" => ""
  | String c s' =>
      if decide (c = CR) then
        String LF (match s' with
                   | String c' s'' =>
                       if decide (c' = LF) then universal_newlines s''
                       else universal_newlines s'
                   | "" => ""
                   end)
      else String c (universal_newlines s')
  end.

(** Lines of a decoded text, each with its terminating line feed, the last
    one possibly without. *)
Fixpoint keepends (s : string) : list string :=
  match s with
  | "" => []
  | String c s' =>
      if decide (c = LF) then NL :: keepends s'
      else match keepends s' with
           | [] => [String c ""]
           | l :: ls => String c l :: ls
           end
  end.

(** [f.read()] and [f.readlines()] of a text file holding [raw]. *)
Definition read_text (raw : string) : string := universal_newlines raw.
Definition readlines (raw : string) : list string := keepends (universal_newlines raw).

End PyStr.

(** ** Python values, exceptions and results *)

(** The values [json.load] can produce and [json.dump] can write. *)
Inductive pyval :=
| PNone
| PBool (b : bool)
| PInt (z : Z)
| PFloat (literal : string)
| PStr (s : string)
| PList (l : list pyval)
| PDict (d : list (string * pyval)).

(** The exceptions the four methods can let escape. *)
Inductive exn :=
| FileNotFoundError
| JSONDecodeError
| KeyError (k : string)
| TypeError
| IndexError.

Inductive result (A : Type) :=
| Ok (a : A)
| Raise (e : exn).
Arguments Ok {A} a.
Arguments Raise {A} e.

#[export] Instance result_ret : MRet result := @Ok.
#[export] Instance result_bind : MBind result := fun A B f r =>
  match r with
  | Ok a => f a
  | Raise e => Raise e
  end.
#[export] Instance result_fmap : FMap result := fun A B f r =>
  match r with
  | Ok a => Ok (f a)
  | Raise e => Raise e
  end.

Module PyDict.

(** A [dict] with [str] keys, in insertion order; the first binding of a
    key is the one the dictionary shows. *)
Fixpoint get (k : string) (d : list (string * pyval)) : option pyval :=
  match d with
  | [] => None
  | (k', v) :: d' => if decide (k' = k) then Some v else get k d'
  end.

(** [d[k] = v]: an existing key keeps its place, a new one goes last. *)
Fixpoint set (k : string) (v : pyval) (d : list (string * pyval)) : list (string * pyval) :=
  match d with
  | [] => [(k, v)]
  | (k', v') :: d' => if decide (k' = k) then (k, v) :: d' else (k', v') :: set k v d'
  end.

End PyDict.

(** [obj[key]] for a [str] key: only a [dict] can be subscripted so. *)
Definition getitem (obj : pyval) (key : string) : result pyval :=
  match obj with
  | PDict d =>
      match PyDict.get key d with
      | Some v => Ok v
      | None => Raise (KeyError key)
      end
  | _ => Raise TypeError
  end.

(** [obj[key] = v] for a [str] key. *)
Definition setitem (obj : pyval) (key : string) (v : pyval) : result pyval :=
  match obj with
  | PDict d => Ok (PDict (PyDict.set key v d))
  | _ => Raise TypeError
  end.

(** [tag == v] for a [str] on the left. *)
Definition str_eq (tag : string) (v : pyval) : bool :=
  match v with
  | PStr s => bool_decide (s = tag)
  | _ => false
  end.

(** [tag in container] for a [str] on the left: element of a list, substring
    of a string, key of a dictionary; other values are not containers. *)
Definition py_in (tag : string) (container : pyval) : result bool :=
  match container with
  | PList l => Ok (existsb (str_eq tag) l)
  | PStr s => Ok (PyStr.contains tag s)
  | PDict d => Ok (bool_decide (is_Some (PyDict.get tag d)))
  | _ => Raise TypeError
  end.

(** [lines[0]] *)
Definition first_item {A} (l : list A) : result A :=
  match l with
  | x :: _ => Ok x
  | [] => Raise IndexError
  end.

(** ** Local time *)

Record datetime := {
  year : nat; month : nat; day : nat;
  hour : nat; minute : nat; second : nat; microsecond : nat
}.

Module Clock.

Definition digit (n : nat) : ascii := ascii_of_nat (48 + n `mod` 10).

(** The last [width] decimal digits of [n], padded with zeros. *)
Fixpoint zpad (width n : nat) : string :=
  match width with
  | 0 => ""
  | S w => zpad w (n `div` 10) +:+ String (digit n) ""
  end.

(** [t.strftime("%Y%m%d_%H%M%S")] *)
Definition strftime_id (t : datetime) : string :=
  zpad 4 (year t) +:+ zpad 2 (month t) +:+ zpad 2 (day t) +:+ "_" +:+
  zpad 2 (hour t) +:+ zpad 2 (minute t) +:+ zpad 2 (second t).

(** [t.isoformat()] of a naive datetime: the fraction is left out when the
    microsecond is zero. *)
Definition isoformat (t : datetime) : string :=
  zpad 4 (year t) +:+ "-" +:+ zpad 2 (month t) +:+ "-" +:+ zpad 2 (day t) +:+ "T" +:+
  zpad 2 (hour t) +:+ ":" +:+ zpad 2 (minute t) +:+ ":" +:+ zpad 2 (second t) +:+
  (if (microsecond t =? 0)%nat then "" else "." +:+ zpad 6 (microsecond t)).

Definition fields (t : datetime) : list nat :=
  [year t; month t; day t; hour t; minute t; second t; microsecond t].

(** Lexicographic order on field lists: [a <= b] for two datetimes. *)
Fixpoint lex_leb (a b : list nat) : bool :=
  match a, b with
  | [], _ => true
  | _ :: _, [] => false
  | x :: a', y :: b' => (x <? y)%nat || ((x =? y)%nat && lex_leb a' b')
  end.

Definition leb (a b : datetime) : bool := lex_leb (fields a) (fields b).
Definition le (a b : datetime) : Prop := leb a b = true.

(** A clock that never steps back. *)
Definition monotone (clock : nat → datetime) : Prop :=
  ∀ i j : nat, (i <= j)%nat → le (clock i) (clock j).

End Clock.

(** ** The world: two directories and the clock *)

(** What a file of the metadata directory holds: a JSON document, given by
    its value, or text that [json.load] rejects. *)
Inductive meta_file :=
| Doc (v : pyval)
| NotJson (raw : string).

Record world := World {
  articles : gmap string string;      (* <base>/articles: file name to stored text *)
  metadata : gmap string meta_file;   (* <base>/metadata: file name to stored file *)
  clock : nat → datetime;             (* successive readings of the local clock *)
  ticks : nat                         (* readings taken so far *)
}.

(** Computations over the world that may raise; the world survives a raise. *)
Definition M (A : Type) : Type := world → result A * world.

#[export] Instance M_ret : MRet M := fun A a w => (Ok a, w).
#[export] Instance M_bind : MBind M := fun A B f m w =>
  match m w with
  | (Ok a, w') => f a w'
  | (Raise e, w') => (Raise e, w')
  end.

(** A pure computation that may raise, run inside [M]. *)
Definition lift {A} (r : result A) : M A := fun w => (r, w).

Module IO.

(** [datetime.datetime.now()] *)
Definition now : M datetime := fun w =>
  (Ok (clock w (ticks w)),
   World (articles w) (metadata w) (clock w) (S (ticks w))).

(** [os.path.exists] on a file of either directory. *)
Definition article_exists (name : string) : M bool := fun w =>
  (Ok (bool_decide (is_Some (articles w !! name))), w).
Definition metadata_exists (name : string) : M bool := fun w =>
  (Ok (bool_decide (is_Some (metadata w !! name))), w).

(** Opening a body file for reading gives its stored text. *)
Definition open_article (name : string) : M string := fun w =>
  match articles w !! name with
  | Some raw => (Ok raw, w)
  | None => (Raise FileNotFoundError, w)
  end.

(** [open(path, "w")] followed by [f.write(text)] *)
Definition write_article (name text : string) : M unit := fun w =>
  (Ok (), World (<[name := text]> (articles w)) (metadata w) (clock w) (ticks w)).

(** [open(path, "r")] followed by [json.load(f)] *)
Definition json_load (name : string) : M pyval := fun w =>
  match metadata w !! name with
  | Some (Doc v) => (Ok v, w)
  | Some (NotJson _) => (Raise JSONDecodeError, w)
  | None => (Raise FileNotFoundError, w)
  end.

(** [open(path, "w")] followed by [json.dump(v, f, ...)] *)
Definition json_dump (name : string) (v : pyval) : M unit := fun w =>
  (Ok (), World (articles w) (<[name := Doc v]> (metadata w)) (clock w) (ticks w)).

(** [os.listdir] of the metadata directory, in the map's own order (the
    operating system promises none). *)
Definition listdir_metadata : M (list string) := fun w =>
  (Ok ((map_to_list (metadata w)).*1), w).

End IO.

(** ** The four methods of [KnowledgeManager] *)

Definition article_path (article_id : string) : string := article_id +:+ ".md".
Definition metadata_path (article_id : string) : string := article_id +:+ ".json".

Definition py_tags (tags : list string) : pyval := PList (PStr <$> tags).

Definition create_article (title content : string) (tags : list string) : M string :=
  t0 ← IO.now;
  let article_id := Clock.strftime_id t0 in
  IO.write_article (article_path article_id)
    ("# " +:+ title +:+ PyStr.NL +:+ PyStr.NL +:+ content);;
  t1 ← IO.now;
  t2 ← IO.now;
  let metadata :=
    PDict [("title", PStr title);
           ("created_at", PStr (Clock.isoformat t1));
           ("tags", py_tags tags);
           ("last_modified", PStr (Clock.isoformat t2))] in
  IO.json_dump (metadata_path article_id) metadata;;
  mret article_id.

Definition update_article (article_id : string) (content : option string)
    (tags : option (list string)) : M bool :=
  a ← IO.article_exists (article_path article_id);
  m ← IO.metadata_exists (metadata_path article_id);
  if negb (a && m) then mret false
  else
    match content with
    | Some content =>
        raw ← IO.open_article (article_path article_id);
        let lines := PyStr.readlines raw in
        title_line ← lift (first_item lines);
        IO.write_article (article_path article_id)
          (title_line +:+ PyStr.NL +:+ content)
    | None => mret ()
    end;;
    match tags with
    | Some tags =>
        metadata ← IO.json_load (metadata_path article_id);
        metadata ← lift (setitem metadata "tags" (py_tags tags));
        t ← IO.now;
        metadata ← lift (setitem metadata "last_modified" (PStr (Clock.isoformat t)));
        IO.json_dump (metadata_path article_id) metadata
    | None => mret ()
    end;;
    mret true.

(** [any(tag in metadata["tags"] for tag in tags)] *)
Fixpoint any_tag_in (metadata : pyval) (tags : list string) : result bool :=
  match tags with
  | [] => Ok false
  | tag :: tags' =>
      article_tags ← getitem metadata "tags";
      found ← py_in tag article_tags;
      if found : bool then Ok true else any_tag_in metadata tags'
  end.

(** The dictionary appended to [results] for a matching article. *)
Definition summary (article_id : string) (metadata : pyval) : result pyval :=
  title ← getitem metadata "title";
  tags ← getitem metadata "tags";
  created_at ← getitem metadata "created_at";
  last_modified ← getitem metadata "last_modified";
  Ok (PDict [("article_id", PStr article_id);
             ("title", title);
             ("tags", tags);
             ("created_at", created_at);
             ("last_modified", last_modified)]).

(** The body of the [for filename in os.listdir(metadata_dir)] loop. *)
Fixpoint search_loop (query : string) (tags : option (list string))
    (filenames : list string) (results : list pyval) : M (list pyval) :=
  match filenames with
  | [] => mret results
  | filename :: rest =>
      if negb (PyStr.endswith ".json" filename) then search_loop query tags rest results
      else
        let article_id := PyStr.drop_last 5 filename in
        metadata ← IO.json_load filename;
        raw ← IO.open_article (article_path article_id);
        let content := PyStr.read_text raw in
        if PyStr.contains (PyStr.lower query) (PyStr.lower content) then
          keep ← match tags with
                 | None => mret true
                 | Some tags => lift (any_tag_in metadata tags)
                 end;
          if keep : bool then
            s ← lift (summary article_id metadata);
            search_loop query tags rest (results ++ [s])
          else search_loop query tags rest results
        else search_loop query tags rest results
  end.

Definition search_articles (query : string) (tags : option (list string)) : M (list pyval) :=
  filenames ← IO.listdir_metadata;
  search_loop query tags filenames [].

Definition get_article (article_id : string) : M pyval :=
  a ← IO.article_exists (article_path article_id);
  m ← IO.metadata_exists (metadata_path article_id);
  if negb (a && m) then mret PNone
  else
    raw ← IO.open_article (article_path article_id);
    let content := PyStr.read_text raw in
    metadata ← IO.json_load (metadata_path article_id);
    mret (PDict [("content", PStr content); ("metadata", metadata)]).

(** ** Vocabulary of the statements *)

(** [c] occurs in [s]. *)
Fixpoint has_char (c : ascii) (s : string) : bool :=
  match s with
  | "" => false
  | String c' s' => bool_decide (c' = c) || has_char c s'
  end.

(** The body file [create_article] writes. *)
Definition body_text (title content : string) : string :=
  "# " +:+ title +:+ PyStr.NL +:+ PyStr.NL +:+ content.

(** [get(create(title, content, tags))] *)
Definition create_then_get (title content : string) (tags : list string) : M pyval :=
  article_id ← create_article title content tags;
  get_article article_id.

(** The keys of a dictionary, in order. *)
Definition keys (v : pyval) : list string :=
  match v with
  | PDict d => d.*1
  | _ => []
  end.

(** A metadata document with the four fields of a record written by
    [create_article], [tags] being a list. *)
Definition metadata_ok (v : pyval) : bool :=
  match v with
  | PDict d =>
      bool_decide (is_Some (PyDict.get "title" d)) &&
      match PyDict.get "tags" d with
      | Some (PList _) => true
      | _ => false
      end &&
      bool_decide (is_Some (PyDict.get "created_at" d)) &&
      bool_decide (is_Some (PyDict.get "last_modified" d))
  | _ => false
  end.

(** A file of the metadata directory that [search_articles] can load
    together with its body: any file that is not named [*.json], or a JSON
    document whose body file exists. *)
Definition file_readable (w : world) (entry : string * meta_file) : bool :=
  negb (PyStr.endswith ".json" entry.1) ||
  (match entry.2 with
   | Doc _ => true
   | NotJson _ => false
   end &&
   bool_decide (is_Some (articles w !! article_path (PyStr.drop_last 5 entry.1)))).

Definition readable (w : world) : bool :=
  forallb (file_readable w) (map_to_list (metadata w)).

(** As [file_readable], the document being a metadata record. *)
Definition file_searchable (w : world) (entry : string * meta_file) : bool :=
  negb (PyStr.endswith ".json" entry.1) ||
  (match entry.2 with
   | Doc v => metadata_ok v
   | NotJson _ => false
   end &&
   bool_decide (is_Some (articles w !! article_path (PyStr.drop_last 5 entry.1)))).

Definition searchable (w : world) : bool :=
  forallb (file_searchable w) (map_to_list (metadata w)).

(** The article [article_id] of the store: its body text and its metadata. *)
Definition article (w : world) (article_id raw : string) (v : pyval) : Prop :=
  articles w !! article_path article_id = Some raw ∧
  metadata w !! metadata_path article_id = Some (Doc v).

(** The query is a substring of the body text, letter case apart. *)
Definition query_matches (query raw : string) : Prop :=
  ∃ before after,
    PyStr.lower (PyStr.read_text raw) = before +:+ PyStr.lower query +:+ after.

(** The filter, when there is one, shares a tag with the article. *)
Definition tags_match (tags : option (list string)) (v : pyval) : Prop :=
  match tags with
  | None => True
  | Some filter =>
      ∃ tag article_tags,
        tag ∈ filter ∧ getitem v "tags" = Ok (PList article_tags) ∧
        PStr tag ∈ article_tags
  end.

(** One pass of the loop of [search_articles] over [filename], as a
    function of the store it reads: the summary to append, if any. *)
Definition visit (query : string) (tags : option (list string)) (w : world)
    (filename : string) : result (option pyval) :=
  if negb (PyStr.endswith ".json" filename) then Ok None
  else
    match metadata w !! filename with
    | None => Raise FileNotFoundError
    | Some (NotJson _) => Raise JSONDecodeError
    | Some (Doc v) =>
        match articles w !! article_path (PyStr.drop_last 5 filename) with
        | None => Raise FileNotFoundError
        | Some raw =>
            if PyStr.contains (PyStr.lower query) (PyStr.lower (PyStr.read_text raw)) then
              keep ← match tags with
                     | None => Ok true
                     | Some filter => any_tag_in v filter
                     end;
              if keep : bool then Some <$> summary (PyStr.drop_last 5 filename) v
              else Ok None
            else Ok None
        end
    end.

(** The summaries collected over a listing on which no pass raises. *)
Definition hits (query : string) (tags : option (list string)) (w : world)
    (filenames : list string) : list pyval :=
  omap (λ filename,
          match visit query tags w filename with
          | Ok o => o
          | Raise _ => None
          end) filenames.

(** ** Example worlds *)

Definition tick_clock (n : nat) : datetime :=
  {| year := 2024; month := 5; day := 17;
     hour := 9; minute := 30; second := 0; microsecond := S n |}.

(** A local clock across the end of daylight saving time: 01:59:59 is
    followed by 01:00:05. *)
Definition fall_back_clock (n : nat) : datetime :=
  match n with
  | 0 | 1 => {| year := 2024; month := 11; day := 3;
                hour := 1; minute := 59; second := 58; microsecond := 0 |}
  | 2 => {| year := 2024; month := 11; day := 3;
            hour := 1; minute := 59; second := 59; microsecond := 0 |}
  | _ => {| year := 2024; month := 11; day := 3;
            hour := 1; minute := 0; second := 5; microsecond := 0 |}
  end.

Definition empty_world (clk : nat → datetime) : world :=
  {| articles := ∅; metadata := ∅; clock := clk; ticks := 0 |}.

Definition record_of (title : string) (tags : list string) : pyval :=
  PDict [("title", PStr title);
         ("created_at", PStr "2024-05-17T09:30:00");
         ("tags", py_tags tags);
         ("last_modified", PStr "2024-05-17T09:30:00")].

(** A store with one article, [apollo]. *)
Definition apollo_world : world :=
  {| articles := {[ "apollo.md" := body_text "Apollo" "The Apollo program" ]};
     metadata := {[ "apollo.json" := Doc (record_of "Apollo" ["space"]) ]};
     clock := tick_clock; ticks := 3 |}.

(** [apollo] and a metadata file [ghost.json] whose body file is gone. *)
Definition orphan_world : world :=
  {| articles := {[ "apollo.md" := body_text "Apollo" "The Apollo program" ]};
     metadata := {[ "apollo.json" := Doc (record_of "Apollo" ["space"]);
                    "ghost.json" := Doc (record_of "Ghost" ["space"]) ]};
     clock := tick_clock; ticks := 3 |}.

(** The two articles of the search scenario: [apollo] tagged [space] and
    [banana] tagged [food]. *)
Definition pantry_world : world :=
  {| articles := {[ "apollo.md" := body_text "Apollo" "The Apollo program";
                    "banana.md" := body_text "Banana" "A yellow fruit" ]};
     metadata := {[ "apollo.json" := Doc (record_of "Apollo" ["space"]);
                    "banana.json" := Doc (record_of "Banana" ["food"]) ]};
     clock := tick_clock; ticks := 6 |}.

Definition summary_of (article_id title : string) (tags : list string) : pyval :=
  PDict [("article_id", PStr article_id);
         ("title", PStr title);
         ("tags", py_tags tags);
         ("created_at", PStr "2024-05-17T09:30:00");
         ("last_modified", PStr "2024-05-17T09:30:00")].

(** An article whose body is a single line without a line end. *)
Definition bare_world : world :=
  {| articles := {[ "note.md" := "abc" ]};
     metadata := {[ "note.json" := Doc (record_of "abc" []) ]};
     clock := tick_clock; ticks := 3 |}.

(** An article whose body file is empty. *)
Definition blank_world : world :=
  {| articles := {[ "note.md" := "" ]};
     metadata := {[ "note.json" := Doc (record_of "abc" []) ]};
     clock := tick_clock; ticks := 3 |}.

(** An article whose metadata file is not JSON. *)
Definition garbled_world : world :=
  {| articles := {[ "note.md" := body_text "Note" "text" ]};
     metadata := {[ "note.json" := NotJson "{title:" ]};
     clock := tick_clock; ticks := 3 |}.

(** ** Stores built through the interface *)

(** Every body file holds a line feed, so that its first line is a
    terminated one. *)
Definition lined (w : world) : bool :=
  forallb (λ entry : string * string, has_char PyStr.LF entry.2)
    (map_to_list (articles w)).

(** The state every call of [create_article] and [update_article] keeps:
    the store is searchable and every body has a terminated first line. *)
Definition sound (w : world) : bool := searchable w && lined w.

(** The metadata dictionary [update_article] writes for new tags at clock
    reading [t]. *)
Definition retagged (d : list (string * pyval)) (tags : list string) (t : datetime)
    : list (string * pyval) :=
  PyDict.set "last_modified" (PStr (Clock.isoformat t))
    (PyDict.set "tags" (py_tags tags) d).

(** A writing call of the interface. *)
Inductive call :=
| Create (title content : string) (tags : list string)
| Update (article_id : string) (content : option string) (tags : option (list string)).

(** The store a call leaves behind, whatever it returns. *)
Definition perform (w : world) (c : call) : world :=
  match c with
  | Create title content tags => (create_article title content tags w).2
  | Update article_id content tags => (update_article article_id content tags w).2
  end.

(** The store left by a sequence of calls, first call first. *)
Definition history (w : world) (calls : list call) : world :=
  foldl perform w calls.

(** ** The base directory at construction *)

Inductive os_error :=
| FileExistsError
| NotADirectoryError.

(** What a name below the base directory is before [__init__] runs. *)
Inductive slot (A : Type) :=
| Missing
| RegularFile
| Directory (files : gmap string A).
Arguments Missing {A}.
Arguments RegularFile {A}.
Arguments Directory {A} files.

(** The base path: absent, a regular file, or a directory with the names
    [articles] and [metadata] in it.  The parent of the base path is a
    directory, and permissions are not modelled. *)
Inductive base_dir :=
| NoBase
| BaseIsFile
| Base (articles_slot : slot string) (metadata_slot : slot meta_file).

(** [os.makedirs(os.path.join(base_path, name), exist_ok=True)] on one name
    of an existing base directory. *)
Definition makedirs {A} (s : slot A) : option os_error * slot A :=
  match s with
  | Missing => (None, Directory ∅)
  | Directory files => (None, Directory files)
  | RegularFile => (Some FileExistsError, RegularFile)
  end.

(** The first call creates an absent base directory on its way. *)
Definition makedirs_articles (d : base_dir) : option os_error * base_dir :=
  match d with
  | NoBase => (None, Base (Directory ∅) Missing)
  | BaseIsFile => (Some NotADirectoryError, BaseIsFile)
  | Base a m => let '(e, a') := makedirs a in (e, Base a' m)
  end.

Definition makedirs_metadata (d : base_dir) : option os_error * base_dir :=
  match d with
  | NoBase => (None, Base Missing (Directory ∅))
  | BaseIsFile => (Some NotADirectoryError, BaseIsFile)
  | Base a m => let '(e, m') := makedirs m in (e, Base a m')
  end.

Definition _ensure_directory_structure (d : base_dir) : option os_error * base_dir :=
  match makedirs_articles d with
  | (None, d') => makedirs_metadata d'
  | (Some e, d') => (Some e, d')
  end.

(** [KnowledgeManager(base_path)] *)
Definition __init__ (d : base_dir) : option os_error * base_dir :=
  _ensure_directory_structure d.

(** The files a slot holds. *)
Definition files_of {A} (s : slot A) : gmap string A :=
  match s with
  | Directory files => files
  | _ => ∅
  end.

(** The body files and the metadata files a base directory holds. *)
Definition articles_of (d : base_dir) : gmap string string :=
  match d with
  | Base a _ => files_of a
  | _ => ∅
  end.

Definition metadata_of (d : base_dir) : gmap string meta_file :=
  match d with
  | Base _ m => files_of m
  | _ => ∅
  end.

(** The store of a base directory with both directories in place. *)
Definition store_of (d : base_dir) (clk : nat → datetime) (n : nat) : option world :=
  match d with
  | Base (Directory a) (Directory m) =>
      Some {| articles := a; metadata := m; clock := clk; ticks := n |}
  | _ => None
  end.

(** ** Running the monad *)

Lemma bind_ok {A B} (m : M A) (f : A → M B) w a w' :
  m w = (Ok a, w') → (m ≫= f) w = f a w'.
Proof. intros E. unfold mbind, M_bind. by rewrite E. Qed.

Lemma bind_raise {A B} (m : M A) (f : A → M B) w e w' :
  m w = (Raise e, w') → (m ≫= f) w = (Raise e, w').
Proof. intros E. unfold mbind, M_bind. by rewrite E. Qed.

Lemma world_eta w :
  {| articles := articles w; metadata := metadata w;
     clock := clock w; ticks := ticks w |} = w.
Proof. by destruct w. Qed.

(** The existence test at the head of [update_article] and [get_article]. *)
Lemma both_exist w article_id :
  is_Some (articles w !! article_path article_id) →
  is_Some (metadata w !! metadata_path article_id) →
  negb (bool_decide (is_Some (articles w !! article_path article_id)) &&
        bool_decide (is_Some (metadata w !! metadata_path article_id))) = false.
Proof. intros Ha Hm. by rewrite !bool_decide_eq_true_2. Qed.

Lemma one_missing w article_id :
  articles w !! article_path article_id = None ∨
  metadata w !! metadata_path article_id = None →
  negb (bool_decide (is_Some (articles w !! article_path article_id)) &&
        bool_decide (is_Some (metadata w !! metadata_path article_id))) = true.
Proof.
  intros [E | E]; rewrite E.
  - done.
  - by rewrite andb_false_r.
Qed.

Ltac unfold_io :=
  unfold mbind, mret, M_bind, M_ret, lift, IO.article_exists,
    IO.metadata_exists, IO.open_article, IO.write_article, IO.json_load,
    IO.json_dump, IO.now, IO.listdir_metadata.

(** ** Dictionaries *)

Lemma dict_get_set_eq k v d : PyDict.get k (PyDict.set k v d) = Some v.
Proof.
  induction d as [| [k' v'] d IH]; simpl.
  - by rewrite decide_True.
  - destruct (decide (k' = k)) as [-> | Hne]; simpl.
    + by rewrite decide_True.
    + by rewrite decide_False.
Qed.

Lemma dict_get_set_ne k k' v d :
  k ≠ k' → PyDict.get k' (PyDict.set k v d) = PyDict.get k' d.
Proof.
  intros Hne. induction d as [| [k0 v0] d IH]; simpl.
  - by rewrite decide_False.
  - destruct (decide (k0 = k)) as [-> | Hk]; simpl.
    + by rewrite !decide_False.
    + by rewrite IH.
Qed.

(** ** Existence checks: [update_article] and [get_article] *)

Lemma update_article_absent w article_id content tags :
  articles w !! article_path article_id = None ∨
  metadata w !! metadata_path article_id = None →
  update_article article_id content tags w = (Ok false, w).
Proof.
  intros H. unfold update_article. unfold_io.
  by rewrite (one_missing _ _ H).
Qed.

Lemma get_article_absent w article_id :
  articles w !! article_path article_id = None ∨
  metadata w !! metadata_path article_id = None →
  get_article article_id w = (Ok PNone, w).
Proof.
  intros H. unfold get_article. unfold_io.
  by rewrite (one_missing _ _ H).
Qed.

Lemma get_article_present w article_id raw v :
  article w article_id raw v →
  get_article article_id w =
    (Ok (PDict [("content", PStr (PyStr.read_text raw)); ("metadata", v)]), w).
Proof.
  intros [Ha Hm]. unfold get_article. unfold_io.
  rewrite both_exist; [| rewrite Ha; eauto | rewrite Hm; eauto].
  by rewrite Ha, Hm.
Qed.

(** C4: when the body file or the metadata file of an identifier is
    missing, [update_article] returns [False] and [get_article] returns
    [None]; neither raises, and the store is left as it was. *)
Theorem update_get_missing_file w article_id content tags :
  articles w !! article_path article_id = None ∨
  metadata w !! metadata_path article_id = None →
  update_article article_id content tags w = (Ok false, w) ∧
  get_article article_id w = (Ok PNone, w).
Proof.
  intros H. split.
  - by apply update_article_absent.
  - by apply get_article_absent.
Qed.

Lemma update_get_missing_file_witness :
  (articles apollo_world !! article_path "ghost" = None ∨
   metadata apollo_world !! metadata_path "ghost" = None) ∧
  update_article "ghost" (Some "x") None apollo_world = (Ok false, apollo_world) ∧
  get_article "ghost" apollo_world = (Ok PNone, apollo_world).
Proof.
  assert (H : articles apollo_world !! article_path "ghost" = None ∨
              metadata apollo_world !! metadata_path "ghost" = None)
    by (left; vm_compute; reflexivity).
  split; [exact H |].
  exact (update_get_missing_file apollo_world "ghost" (Some "x") None H).
Defined.

(** C7: when both files of an identifier exist, [update_article] called
    with neither content nor tags returns [True] and leaves the whole store,
    both files included, exactly as it was. *)
Theorem update_nothing_is_noop w article_id :
  is_Some (articles w !! article_path article_id) →
  is_Some (metadata w !! metadata_path article_id) →
  update_article article_id None None w = (Ok true, w).
Proof.
  intros Ha Hm. unfold update_article. unfold_io.
  by rewrite both_exist.
Qed.

Lemma update_nothing_is_noop_witness :
  update_article "apollo" None None apollo_world = (Ok true, apollo_world).
Proof.
  apply (update_nothing_is_noop apollo_world "apollo").
  - vm_compute. eexists. reflexivity.
  - vm_compute. eexists. reflexivity.
Defined.

(** C9: when the body file exists but is empty and the metadata file
    exists, [update_article] with a content raises [IndexError], whatever
    the tags, and writes nothing. *)
Theorem update_empty_body_raises w article_id content tags :
  articles w !! article_path article_id = Some "" →
  is_Some (metadata w !! metadata_path article_id) →
  update_article article_id (Some content) tags w = (Raise IndexError, w).
Proof.
  intros Ha Hm. unfold update_article. unfold_io.
  rewrite both_exist; [| rewrite Ha; eauto | done].
  by rewrite Ha.
Qed.

Lemma update_empty_body_raises_witness :
  update_article "note" (Some "new") None blank_world = (Raise IndexError, blank_world).
Proof.
  apply (update_empty_body_raises blank_world "note" "new" None).
  - vm_compute. reflexivity.
  - vm_compute. eexists. reflexivity.
Defined.

(** ** Text-mode reading *)

Lemma has_char_app c s t : has_char c (s +:+ t) = has_char c s || has_char c t.
Proof.
  induction s as [| a s IH]; simpl; [done |].
  by rewrite IH, orb_assoc.
Qed.

(** Text without carriage returns is read back as it was written. *)
Lemma universal_newlines_plain s :
  has_char PyStr.CR s = false → PyStr.universal_newlines s = s.
Proof.
  induction s as [| c s IH]; simpl; [done |].
  intros [Hc Hs]%orb_false_elim.
  apply bool_decide_eq_false in Hc.
  rewrite decide_False by done. by rewrite IH.
Qed.

(** ** [create_article] followed by [get_article] *)

Lemma create_article_run w title content tags :
  let article_id := Clock.strftime_id (clock w (ticks w)) in
  create_article title content tags w =
    (Ok article_id,
     {| articles := <[article_path article_id := body_text title content]> (articles w);
        metadata :=
          <[metadata_path article_id :=
              Doc (PDict [("title", PStr title);
                          ("created_at", PStr (Clock.isoformat (clock w (S (ticks w)))));
                          ("tags", py_tags tags);
                          ("last_modified",
                           PStr (Clock.isoformat (clock w (S (S (ticks w))))))])]>
            (metadata w);
        clock := clock w;
        ticks := S (S (S (ticks w))) |}).
Proof. reflexivity. Qed.

(** C1, as the code has it: [get_article] on the identifier returned by
    [create_article] yields a record whose [content] is the whole body file
    as read back in text mode, that is the heading line, a blank line and
    the content argument (exactly so when title and content hold no
    carriage return), and whose [metadata["tags"]] is the tag list given. *)
Theorem get_create_returns_body_and_tags w title content tags :
  ∃ r w',
    create_then_get title content tags w = (Ok r, w') ∧
    getitem r "content" = Ok (PStr (PyStr.read_text (body_text title content))) ∧
    (getitem r "metadata" ≫= λ m, getitem m "tags") = Ok (py_tags tags) ∧
    (has_char PyStr.CR title = false → has_char PyStr.CR content = false →
     PyStr.read_text (body_text title content) = body_text title content).
Proof.
  unfold create_then_get.
  eexists _, _. split; [| split; [| split]].
  - erewrite bind_ok by apply create_article_run.
    apply get_article_present. split; simpl; apply lookup_insert_eq.
  - reflexivity.
  - reflexivity.
  - intros Ht Hc. apply universal_newlines_plain.
    unfold body_text. by rewrite !has_char_app, Ht, Hc.
Qed.

(** C1 as stated fails: for title [T] and content [c] the record's
    [content] is the body file with its heading, not [c]. *)
Lemma get_create_content_is_not_the_argument :
  ((create_then_get "T" "c" ["x"] ≫= λ r, lift (getitem r "content"))
     (empty_world tick_clock)).1 = Ok (PStr (body_text "T" "c")) ∧
  body_text "T" "c" ≠ "c".
Proof. split; [vm_compute; reflexivity | discriminate]. Qed.

(** ** [update_article] with tags only *)

(** C5, as the code has it: for an article whose metadata file holds a JSON
    object, [update_article] with tags only returns [True], leaves the body
    directory untouched, keeps [title] and [created_at], replaces [tags]
    and sets [last_modified] to the clock reading taken by the call; that
    reading is not before the previous [last_modified] when the latter was
    an earlier reading of a clock that never steps back. *)
Theorem update_tags_frame w article_id d new_tags :
  is_Some (articles w !! article_path article_id) →
  metadata w !! metadata_path article_id = Some (Doc (PDict d)) →
  ∃ d',
    update_article article_id None (Some new_tags) w =
      (Ok true,
       {| articles := articles w;
          metadata := <[metadata_path article_id := Doc (PDict d')]> (metadata w);
          clock := clock w;
          ticks := S (ticks w) |}) ∧
    PyDict.get "title" d' = PyDict.get "title" d ∧
    PyDict.get "created_at" d' = PyDict.get "created_at" d ∧
    PyDict.get "tags" d' = Some (py_tags new_tags) ∧
    PyDict.get "last_modified" d' =
      Some (PStr (Clock.isoformat (clock w (ticks w)))) ∧
    (∀ i : nat,
       (i < ticks w)%nat → Clock.monotone (clock w) →
       PyDict.get "last_modified" d = Some (PStr (Clock.isoformat (clock w i))) →
       Clock.le (clock w i) (clock w (ticks w))).
Proof.
  intros Ha Hm.
  exists (PyDict.set "last_modified" (PStr (Clock.isoformat (clock w (ticks w))))
            (PyDict.set "tags" (py_tags new_tags) d)).
  split; [| split; [| split; [| split; [| split]]]].
  - unfold update_article. unfold_io.
    rewrite both_exist; [| done | rewrite Hm; eauto].
    by rewrite Hm.
  - by rewrite !dict_get_set_ne.
  - by rewrite !dict_get_set_ne.
  - by rewrite dict_get_set_ne, dict_get_set_eq.
  - by rewrite dict_get_set_eq.
  - intros i Hi Hmono _. apply Hmono. lia.
Qed.

Lemma update_tags_frame_witness :
  ∃ d',
    update_article "apollo" None (Some ["moon"]) apollo_world =
      (Ok true,
       {| articles := articles apollo_world;
          metadata := <["apollo.json" := Doc (PDict d')]> (metadata apollo_world);
          clock := tick_clock;
          ticks := 4 |}) ∧
    PyDict.get "title" d' = Some (PStr "Apollo") ∧
    PyDict.get "created_at" d' = Some (PStr "2024-05-17T09:30:00") ∧
    PyDict.get "tags" d' = Some (py_tags ["moon"]) ∧
    PyDict.get "last_modified" d' = Some (PStr "2024-05-17T09:30:00.000004").
Proof.
  destruct (update_tags_frame apollo_world "apollo"
              [("title", PStr "Apollo");
               ("created_at", PStr "2024-05-17T09:30:00");
               ("tags", py_tags ["space"]);
               ("last_modified", PStr "2024-05-17T09:30:00")] ["moon"])
    as (d' & Hrun & Ht & Hc & Htags & Hl & _).
  - vm_compute. eexists. reflexivity.
  - vm_compute. reflexivity.
  - exists d'. repeat split; assumption.
Defined.

(** C5 as stated fails on two accounts.  When the local clock steps back
    (here at the end of daylight saving time) the new [last_modified] is
    before the previous one; and when the metadata file is not JSON the
    call raises. *)
Lemma update_tags_last_modified_can_decrease :
  let w1 := (create_article "T" "c" ["x"] (empty_world fall_back_clock)).2 in
  let run := update_article "20241103_015958" None (Some ["y"]) w1 in
  run.1 = Ok true ∧
  ((IO.json_load "20241103_015958.json" w1).1 ≫= λ m, getitem m "last_modified")
    = Ok (PStr "2024-11-03T01:59:59") ∧
  ((IO.json_load "20241103_015958.json" run.2).1 ≫= λ m, getitem m "last_modified")
    = Ok (PStr "2024-11-03T01:00:05") ∧
  Clock.leb (fall_back_clock 2) (fall_back_clock 3) = false ∧
  update_article "note" None (Some ["y"]) garbled_world
    = (Raise JSONDecodeError, garbled_world).
Proof. vm_compute. repeat split; reflexivity. Qed.

(** ** Lines of a text *)

Lemma str_app_cons x (a b : string) : String x a +:+ b = String x (a +:+ b).
Proof. reflexivity. Qed.

Lemma str_app_nil (b : string) : "" +:+ b = b.
Proof. reflexivity. Qed.

Lemma str_app_assoc (a b c : string) : (a +:+ b) +:+ c = a +:+ b +:+ c.
Proof.
  induction a as [| x a IH]; [done |].
  by rewrite !str_app_cons, IH.
Qed.

Lemma take_drop n s : PyStr.take n s +:+ PyStr.drop n s = s.
Proof.
  revert s. induction n as [| n IH]; intros [| c s]; simpl; try done.
  by rewrite str_app_cons, IH.
Qed.

(** A string with a given ending is what precedes it followed by it. *)
Lemma endswith_split suf s :
  PyStr.endswith suf s = true →
  s = PyStr.drop_last (String.length suf) s +:+ suf.
Proof.
  unfold PyStr.endswith, PyStr.drop_last.
  intros [_ Hd%bool_decide_eq_true]%andb_true_iff.
  set (n := String.length s - String.length suf) in *.
  rewrite <- Hd. symmetry. apply take_drop.
Qed.

Lemma universal_newlines_cr_lf s :
  PyStr.universal_newlines (String PyStr.CR (String PyStr.LF s)) =
    String PyStr.LF (PyStr.universal_newlines s).
Proof. reflexivity. Qed.

Lemma universal_newlines_cr_other c s :
  c ≠ PyStr.LF →
  PyStr.universal_newlines (String PyStr.CR (String c s)) =
    String PyStr.LF (PyStr.universal_newlines (String c s)).
Proof.
  intros Hc.
  change (PyStr.universal_newlines (String PyStr.CR (String c s)))
    with (String PyStr.LF (if decide (c = PyStr.LF)
                           then PyStr.universal_newlines s
                           else PyStr.universal_newlines (String c s))).
  by rewrite decide_False.
Qed.

Lemma universal_newlines_other c s :
  c ≠ PyStr.CR →
  PyStr.universal_newlines (String c s) = String c (PyStr.universal_newlines s).
Proof.
  intros Hc.
  change (PyStr.universal_newlines (String c s))
    with (if decide (c = PyStr.CR)
          then String PyStr.LF
                 match s with
                 | String c' s'' =>
                     if decide (c' = PyStr.LF) then PyStr.universal_newlines s''
                     else PyStr.universal_newlines s
                 | "" => ""
                 end
          else String c (PyStr.universal_newlines s)).
  by rewrite decide_False.
Qed.

Lemma universal_newlines_no_cr s :
  has_char PyStr.CR (PyStr.universal_newlines s) = false.
Proof.
  remember (String.length s) as n eqn:Hn. revert s Hn.
  induction n as [n IH] using lt_wf_ind. intros s ->.
  destruct s as [| c s]; [done |].
  destruct (decide (c = PyStr.CR)) as [-> | Hc].
  - destruct s as [| c' s]; [done |].
    destruct (decide (c' = PyStr.LF)) as [-> | Hc'].
    + rewrite universal_newlines_cr_lf.
      change (has_char PyStr.CR (PyStr.universal_newlines s) = false).
      eapply IH; [| reflexivity]. simpl. lia.
    + rewrite universal_newlines_cr_other by done.
      change (has_char PyStr.CR (PyStr.universal_newlines (String c' s)) = false).
      eapply IH; [| reflexivity]. simpl. lia.
  - rewrite universal_newlines_other by done.
    cbn [has_char]. rewrite bool_decide_eq_false_2 by done.
    eapply IH; [| reflexivity]. simpl. lia.
Qed.

Lemma universal_newlines_app_plain a b :
  has_char PyStr.CR a = false →
  PyStr.universal_newlines (a +:+ b) = a +:+ PyStr.universal_newlines b.
Proof.
  induction a as [| c a IH]; simpl; [done |].
  intros [Hc Ha]%orb_false_elim. apply bool_decide_eq_false in Hc.
  rewrite decide_False by done. by rewrite IH.
Qed.

(** A line free of line feeds, followed by one, is the first line. *)
Lemma keepends_line l s :
  has_char PyStr.LF l = false →
  PyStr.keepends (l +:+ PyStr.NL +:+ s) = (l +:+ PyStr.NL) :: PyStr.keepends s.
Proof.
  induction l as [| c l IH]; simpl.
  - done.
  - intros [Hc Hl]%orb_false_elim. apply bool_decide_eq_false in Hc.
    rewrite decide_False by done. by rewrite IH.
Qed.

(** The first line of a text: free of line feeds up to its end, which is a
    line feed unless the text stops there. *)
Lemma keepends_first t first rest :
  PyStr.keepends t = first :: rest →
  ∃ l, has_char PyStr.LF l = false ∧
       (first = l +:+ PyStr.NL ∨ (first = l ∧ l ≠ "" ∧ rest = [])) ∧
       (has_char PyStr.CR t = false → has_char PyStr.CR l = false).
Proof.
  revert first rest. induction t as [| c t IH]; simpl; [done |].
  intros first rest. destruct (decide (c = PyStr.LF)) as [-> | Hc].
  - intros [= <- <-]. exists "". repeat split; auto.
  - destruct (PyStr.keepends t) as [| l0 ls] eqn:E.
    + intros [= <- <-]. exists (String c ""). simpl.
      rewrite bool_decide_eq_false_2 by done.
      repeat split; auto.
      intros H. apply orb_false_elim in H as [-> _]. done.
    + intros [= <- <-].
      destruct (IH l0 ls eq_refl) as (l & Hlf & Hshape & Hcr).
      exists (String c l). simpl. rewrite bool_decide_eq_false_2 by done.
      split; [done |]. split.
      * destruct Hshape as [-> | (-> & _ & ->)]; [by left | right; done].
      * intros [-> Ht]%orb_false_elim. simpl. auto.
Qed.

Lemma has_char_last c l : has_char c (l +:+ String c "") = true.
Proof.
  rewrite has_char_app. simpl. rewrite bool_decide_eq_true_2 by done.
  by rewrite orb_true_r.
Qed.

(** The first line read from a file, when it ends with a line feed. *)
Lemma readlines_first raw first rest :
  PyStr.readlines raw = first :: rest →
  PyStr.endswith PyStr.NL first = true →
  ∃ l, first = l +:+ PyStr.NL ∧
       has_char PyStr.LF l = false ∧ has_char PyStr.CR l = false.
Proof.
  intros Hl He. apply keepends_first in Hl as (l & Hlf & Hshape & Hcr).
  specialize (Hcr (universal_newlines_no_cr raw)).
  destruct Hshape as [-> | (-> & _ & _)]; [by exists l |].
  apply endswith_split in He. rewrite He in Hlf.
  unfold PyStr.NL in Hlf. by rewrite has_char_last in Hlf.
Qed.

(** Reading back [first + "\n" + content]: the first line, a blank line,
    then the lines of the content. *)
Lemma readlines_rewritten l content :
  has_char PyStr.LF l = false → has_char PyStr.CR l = false →
  PyStr.readlines ((l +:+ PyStr.NL) +:+ PyStr.NL +:+ content) =
    (l +:+ PyStr.NL) :: PyStr.NL :: PyStr.readlines content.
Proof.
  intros Hlf Hcr. unfold PyStr.readlines.
  rewrite str_app_assoc, universal_newlines_app_plain by done.
  change (PyStr.universal_newlines (PyStr.NL +:+ PyStr.NL +:+ content))
    with (PyStr.NL +:+ PyStr.NL +:+ PyStr.universal_newlines content).
  rewrite keepends_line by done.
  reflexivity.
Qed.


(** ** [update_article] with a content only *)

Lemma update_article_content_run w article_id raw first rest new_content :
  articles w !! article_path article_id = Some raw →
  is_Some (metadata w !! metadata_path article_id) →
  PyStr.readlines raw = first :: rest →
  update_article article_id (Some new_content) None w =
    (Ok true,
     {| articles :=
          <[article_path article_id := first +:+ PyStr.NL +:+ new_content]> (articles w);
        metadata := metadata w;
        clock := clock w;
        ticks := ticks w |}).
Proof.
  intros Ha Hm Hl. unfold update_article. unfold_io.
  rewrite both_exist; [| rewrite Ha; eauto | done].
  by rewrite Ha, Hl.
Qed.

(** C2, as the code has it: for an article whose body starts with a line
    that ends in a line feed, [update_article] with a content only returns
    [True] and rewrites the body file to that first line, a line feed and
    the new content; read back, the file shows the same first line, then a
    blank line, then the lines of the new content. *)
Theorem update_content_keeps_first_line w article_id raw first rest new_content :
  articles w !! article_path article_id = Some raw →
  is_Some (metadata w !! metadata_path article_id) →
  PyStr.readlines raw = first :: rest →
  PyStr.endswith PyStr.NL first = true →
  update_article article_id (Some new_content) None w =
    (Ok true,
     {| articles :=
          <[article_path article_id := first +:+ PyStr.NL +:+ new_content]> (articles w);
        metadata := metadata w;
        clock := clock w;
        ticks := ticks w |}) ∧
  PyStr.readlines (first +:+ PyStr.NL +:+ new_content) =
    first :: PyStr.NL :: PyStr.readlines new_content.
Proof.
  intros Ha Hm Hl He. split.
  - by eapply update_article_content_run.
  - destruct (readlines_first _ _ _ Hl He) as (l & -> & Hlf & Hcr).
    by apply readlines_rewritten.
Qed.

Lemma update_content_keeps_first_line_witness :
  update_article "apollo" (Some "Saturn V") None apollo_world =
    (Ok true,
     {| articles :=
          <["apollo.md" := ("# Apollo" +:+ PyStr.NL) +:+ PyStr.NL +:+ "Saturn V"]>
            (articles apollo_world);
        metadata := metadata apollo_world;
        clock := tick_clock;
        ticks := 3 |}) ∧
  PyStr.readlines (("# Apollo" +:+ PyStr.NL) +:+ PyStr.NL +:+ "Saturn V") =
    ["# Apollo" +:+ PyStr.NL; PyStr.NL; "Saturn V"].
Proof.
  apply (update_content_keeps_first_line apollo_world "apollo"
           (body_text "Apollo" "The Apollo program")
           ("# Apollo" +:+ PyStr.NL) [PyStr.NL; "The Apollo program"] "Saturn V").
  - vm_compute. reflexivity.
  - vm_compute. eexists. reflexivity.
  - vm_compute. reflexivity.
  - vm_compute. reflexivity.
Defined.

(** C2 as stated fails: when the body is a single line without a line end,
    the call succeeds but the new content follows the first line directly,
    with no blank line between them. *)
Lemma update_content_without_blank_line :
  let run := update_article "note" (Some "x") None bare_world in
  run.1 = Ok true ∧
  articles run.2 !! "note.md" = Some ("abc" +:+ PyStr.NL +:+ "x") ∧
  PyStr.readlines ("abc" +:+ PyStr.NL +:+ "x") = ["abc" +:+ PyStr.NL; "x"].
Proof. vm_compute. repeat split; reflexivity. Qed.

(** ** The loop of [search_articles] *)

Lemma search_loop_cons query tags filename rest results w :
  search_loop query tags (filename :: rest) results w =
    match visit query tags w filename with
    | Ok None => search_loop query tags rest results w
    | Ok (Some s) => search_loop query tags rest (results ++ [s])%list w
    | Raise e => (Raise e, w)
    end.
Proof.
  unfold visit. cbn [search_loop].
  destruct (negb (PyStr.endswith ".json" filename)); [done |].
  unfold_io.
  destruct (metadata w !! filename) as [[v | junk] |]; [| done | done].
  destruct (articles w !! _) as [raw |]; [| done].
  destruct (PyStr.contains _ _); [| done].
  destruct tags as [filter |].
  - destruct (any_tag_in v filter) as [[|] | e]; [| done | done].
    by destruct (summary _ v).
  - by destruct (summary _ v).
Qed.

(** The loop raises as soon as one pass does, and otherwise returns the
    summaries of all passes; it never writes. *)
Lemma search_loop_raises query tags filenames results w filename e :
  filename ∈ filenames →
  visit query tags w filename = Raise e →
  ∃ e', search_loop query tags filenames results w = (Raise e', w).
Proof.
  intros Hin Hv. revert results.
  induction filenames as [| f rest IH]; intros results.
  - by apply elem_of_nil in Hin.
  - rewrite search_loop_cons.
    destruct (decide (f = filename)) as [-> | Hne].
    + rewrite Hv. eauto.
    + apply elem_of_cons in Hin as [-> | Hin]; [done |].
      destruct (visit query tags w f) as [[s |] | e0]; eauto.
Qed.

Lemma search_loop_returns query tags filenames results w :
  (∀ filename, filename ∈ filenames → ∃ o, visit query tags w filename = Ok o) →
  search_loop query tags filenames results w =
    (Ok (results ++ hits query tags w filenames)%list, w).
Proof.
  revert results. induction filenames as [| f rest IH]; intros results Hok.
  - simpl. by rewrite app_nil_r.
  - rewrite search_loop_cons. unfold hits. cbn [omap list_omap].
    destruct (Hok f) as [o Ho]; [by left |]. rewrite Ho.
    destruct o as [s |].
    + rewrite IH by (intros; apply Hok; by right).
      by rewrite <- app_assoc.
    + apply IH. intros; apply Hok; by right.
Qed.

Lemma listdir_metadata_elem w filename :
  filename ∈ (map_to_list (metadata w)).*1 ↔ is_Some (metadata w !! filename).
Proof.
  rewrite list_elem_of_fmap. split.
  - intros ([f mf] & -> & Hin). apply elem_of_map_to_list in Hin. eauto.
  - intros [mf Hmf]. exists (filename, mf). split; [done |].
    by apply elem_of_map_to_list.
Qed.

Lemma search_articles_raises query tags w filename e :
  is_Some (metadata w !! filename) →
  visit query tags w filename = Raise e →
  ∃ e', search_articles query tags w = (Raise e', w).
Proof.
  intros Hin Hv. unfold search_articles.
  erewrite bind_ok by reflexivity.
  eapply search_loop_raises; [| done].
  by apply listdir_metadata_elem.
Qed.

Lemma search_articles_returns query tags w :
  (∀ filename, is_Some (metadata w !! filename) →
     ∃ o, visit query tags w filename = Ok o) →
  search_articles query tags w =
    (Ok (hits query tags w (map_to_list (metadata w)).*1), w).
Proof.
  intros Hok. unfold search_articles.
  erewrite bind_ok by reflexivity.
  rewrite search_loop_returns; [done |].
  intros f Hf. apply Hok. by apply listdir_metadata_elem.
Qed.

(** C6: when the metadata directory holds a [*.json] file whose body file
    is missing, [search_articles] raises, whatever the query and the
    filter: it neither skips the article nor returns a partial list. *)
Theorem search_missing_body_raises w filename query tags :
  PyStr.endswith ".json" filename = true →
  is_Some (metadata w !! filename) →
  articles w !! article_path (PyStr.drop_last 5 filename) = None →
  ∃ e, search_articles query tags w = (Raise e, w).
Proof.
  intros Hjson Hm Ha.
  assert (∃ e, visit query tags w filename = Raise e) as [e He].
  { unfold visit. rewrite Hjson, Ha. cbn [negb].
    destruct Hm as [[v | junk] ->]; eauto. }
  by eapply search_articles_raises.
Qed.

Lemma search_missing_body_raises_witness :
  ∃ e, search_articles "apollo" None orphan_world = (Raise e, orphan_world).
Proof.
  apply (search_missing_body_raises orphan_world "ghost.json" "apollo" None).
  - vm_compute. reflexivity.
  - vm_compute. eexists. reflexivity.
  - vm_compute. reflexivity.
Defined.

(** ** Substrings, endings *)

Lemma startswith_spec p s : PyStr.startswith p s = true ↔ ∃ b, s = p +:+ b.
Proof.
  revert s. induction p as [| a p IH]; intros s; simpl.
  - split; [intros _; by exists s | done].
  - destruct s as [| c s].
    + split; [done | intros [b Hb]; discriminate].
    + destruct (decide (a = c)) as [-> | Hne].
      * rewrite IH. split; intros [b Hb]; exists b.
        -- by rewrite str_app_cons, Hb.
        -- rewrite str_app_cons in Hb. by injection Hb.
      * split; [done |]. intros [b Hb]. rewrite str_app_cons in Hb. congruence.
Qed.

(** [contains] is the substring test. *)
Lemma contains_spec needle hay :
  PyStr.contains needle hay = true ↔ ∃ a b, hay = a +:+ needle +:+ b.
Proof.
  split.
  - induction hay as [| c hay IH]; simpl.
    + rewrite orb_false_r. intros [b Hb]%startswith_spec. by exists "", b.
    + intros [[b Hb]%startswith_spec | H]%orb_true_iff.
      * by exists "", b.
      * destruct (IH H) as (a & b & ->). by exists (String c a), b.
  - intros (a & b & ->). induction a as [| c a IH].
    + rewrite str_app_nil.
      assert (PyStr.startswith needle (needle +:+ b) = true) as Hs
        by (apply startswith_spec; eauto).
      destruct (needle +:+ b); simpl in *; by rewrite Hs.
    + rewrite str_app_cons. simpl. by rewrite IH, orb_true_r.
Qed.

Lemma str_length_app (a b : string) :
  String.length (a +:+ b) = (String.length a + String.length b)%nat.
Proof.
  induction a as [| x a IH]; [done |].
  rewrite str_app_cons. simpl. by rewrite IH.
Qed.

Lemma drop_length_app (a b : string) : PyStr.drop (String.length a) (a +:+ b) = b.
Proof.
  induction a as [| x a IH]; [by destruct b |].
  by rewrite str_app_cons.
Qed.

Lemma take_length_app (a b : string) : PyStr.take (String.length a) (a +:+ b) = a.
Proof.
  induction a as [| x a IH]; [by destruct b |].
  rewrite str_app_cons. simpl. by rewrite IH.
Qed.

Lemma endswith_app suf s : PyStr.endswith suf (s +:+ suf) = true.
Proof.
  unfold PyStr.endswith. rewrite str_length_app.
  replace (String.length s + String.length suf - String.length suf)%nat
    with (String.length s) by lia.
  rewrite drop_length_app, bool_decide_eq_true_2 by done.
  rewrite andb_true_r. apply Nat.leb_le. lia.
Qed.

Lemma drop_last_app suf s : PyStr.drop_last (String.length suf) (s +:+ suf) = s.
Proof.
  unfold PyStr.drop_last. rewrite str_length_app.
  replace (String.length s + String.length suf - String.length suf)%nat
    with (String.length s) by lia.
  apply take_length_app.
Qed.

(** A [*.json] file name is the metadata path of the identifier the loop
    cuts from it, and conversely. *)
Lemma metadata_path_drop_last filename :
  PyStr.endswith ".json" filename = true →
  metadata_path (PyStr.drop_last 5 filename) = filename.
Proof. intros H. symmetry. by apply (endswith_split ".json"). Qed.

Lemma metadata_path_endswith article_id :
  PyStr.endswith ".json" (metadata_path article_id) = true.
Proof. apply endswith_app. Qed.

Lemma drop_last_metadata_path article_id :
  PyStr.drop_last 5 (metadata_path article_id) = article_id.
Proof. apply (drop_last_app ".json"). Qed.

(** Line feeds survive the decoding, and a text with a line feed has a
    terminated first line: so have the bodies written by [create_article]
    and by [update_article]. *)
Lemma universal_newlines_keeps_lf s :
  has_char PyStr.LF s = true → has_char PyStr.LF (PyStr.universal_newlines s) = true.
Proof.
  induction s as [| c s IH]; [done |].
  destruct (decide (c = PyStr.CR)) as [-> | Hc].
  - intros _. by destruct s as [| c' s].
  - rewrite universal_newlines_other by done. cbn [has_char].
    intros [-> | H%IH]%orb_true_iff; [done |].
    by rewrite H, orb_true_r.
Qed.

Lemma keepends_terminated t :
  has_char PyStr.LF t = true → ∃ l rest, PyStr.keepends t = (l +:+ PyStr.NL) :: rest.
Proof.
  induction t as [| c t IH]; [done |]. simpl.
  destruct (decide (c = PyStr.LF)) as [-> | Hc].
  - intros _. by exists "", (PyStr.keepends t).
  - rewrite bool_decide_eq_false_2 by done. simpl.
    intros (l & rest & ->)%IH. by exists (String c l), rest.
Qed.

Lemma readlines_terminated raw :
  has_char PyStr.LF raw = true →
  ∃ first rest,
    PyStr.readlines raw = first :: rest ∧ PyStr.endswith PyStr.NL first = true.
Proof.
  intros (l & rest & Hl)%universal_newlines_keeps_lf%keepends_terminated.
  exists (l +:+ PyStr.NL), rest. split; [done | apply endswith_app].
Qed.

Lemma created_body_has_lf title content :
  has_char PyStr.LF (body_text title content) = true.
Proof.
  unfold body_text. rewrite !has_char_app. simpl.
  by rewrite !orb_true_r.
Qed.

Lemma updated_body_has_lf first content :
  has_char PyStr.LF (first +:+ PyStr.NL +:+ content) = true.
Proof. rewrite !has_char_app. simpl. by rewrite orb_true_r. Qed.

(** ** The tag filter *)

Lemma str_eq_spec tag v : str_eq tag v = true ↔ v = PStr tag.
Proof.
  destruct v; simpl; try (split; [done | discriminate]).
  rewrite bool_decide_eq_true. split; [by intros -> | by intros [= ->]].
Qed.

Lemma any_tag_in_list v article_tags filter :
  getitem v "tags" = Ok (PList article_tags) →
  any_tag_in v filter =
    Ok (existsb (λ tag, existsb (str_eq tag) article_tags) filter).
Proof.
  intros Hv. induction filter as [| tag filter IH]; simpl; [done |].
  rewrite Hv. simpl. by destruct (existsb (str_eq tag) article_tags).
Qed.

Lemma any_tag_in_nil v : any_tag_in v [] = Ok false.
Proof. reflexivity. Qed.

Lemma tag_overlap article_tags filter :
  existsb (λ tag, existsb (str_eq tag) article_tags) filter = true ↔
  ∃ tag, tag ∈ filter ∧ PStr tag ∈ article_tags.
Proof.
  rewrite existsb_exists. split.
  - intros (tag & Hin & (x & Hx & ->%str_eq_spec)%existsb_exists).
    exists tag. by rewrite <- !list_elem_of_In in *.
  - intros (tag & Hin & Hx). exists tag.
    rewrite existsb_exists. rewrite !list_elem_of_In in *.
    split; [done |]. exists (PStr tag). split; [done |]. by apply str_eq_spec.
Qed.

(** ** Metadata records and summaries *)

Lemma metadata_ok_fields v :
  metadata_ok v = true →
  ∃ d title article_tags created_at last_modified,
    v = PDict d ∧
    PyDict.get "title" d = Some title ∧
    PyDict.get "tags" d = Some (PList article_tags) ∧
    PyDict.get "created_at" d = Some created_at ∧
    PyDict.get "last_modified" d = Some last_modified.
Proof.
  destruct v as [| | | | | | d]; try discriminate. simpl.
  rewrite !andb_true_iff, !bool_decide_eq_true.
  intros [[[[title Ht] Htags] [c Hc]] [m Hm]].
  destruct (PyDict.get "tags" d) as [[| | | | | l |] |] eqn:Hl; try discriminate.
  exists d, title, l, c, m. repeat split; done.
Qed.

Lemma summary_ok article_id v :
  metadata_ok v = true →
  ∃ title article_tags created_at last_modified,
    getitem v "tags" = Ok (PList article_tags) ∧
    summary article_id v =
      Ok (PDict [("article_id", PStr article_id);
                 ("title", title);
                 ("tags", PList article_tags);
                 ("created_at", created_at);
                 ("last_modified", last_modified)]).
Proof.
  intros (d & title & l & c & m & -> & Ht & Htags & Hc & Hm)%metadata_ok_fields.
  exists title, l, c, m. unfold summary. simpl.
  by rewrite Ht, Htags, Hc, Hm.
Qed.

(** A summary has the five keys and no other; the body is not among them. *)
Lemma summary_keys article_id v s :
  summary article_id v = Ok s →
  keys s = ["article_id"; "title"; "tags"; "created_at"; "last_modified"].
Proof.
  unfold summary.
  destruct (getitem v "title"); [| done].
  destruct (getitem v "tags"); [| done].
  destruct (getitem v "created_at"); [| done].
  destruct (getitem v "last_modified"); [| done].
  by intros [= <-].
Qed.

Lemma summary_article_id article_id article_id' v v' s :
  summary article_id v = Ok s → summary article_id' v' = Ok s →
  article_id = article_id'.
Proof.
  unfold summary.
  destruct (getitem v "title"); [| done].
  destruct (getitem v "tags"); [| done].
  destruct (getitem v "created_at"); [| done].
  destruct (getitem v "last_modified"); [| done].
  destruct (getitem v' "title"); [| done].
  destruct (getitem v' "tags"); [| done].
  destruct (getitem v' "created_at"); [| done].
  destruct (getitem v' "last_modified"); [| done].
  simpl. intros [= <-] [= ->]. done.
Qed.

(** ** What [search_articles] returns *)

Lemma searchable_file w filename mf :
  searchable w = true → metadata w !! filename = Some mf →
  file_searchable w (filename, mf) = true.
Proof.
  unfold searchable. rewrite forallb_forall. intros Hall Hm.
  apply Hall, list_elem_of_In. by apply elem_of_map_to_list.
Qed.

Lemma readable_file w filename mf :
  readable w = true → metadata w !! filename = Some mf →
  file_readable w (filename, mf) = true.
Proof.
  unfold readable. rewrite forallb_forall. intros Hall Hm.
  apply Hall, list_elem_of_In. by apply elem_of_map_to_list.
Qed.

(** The pass over the metadata file of an article. *)
Lemma visit_article query tags w article_id raw v :
  article w article_id raw v →
  visit query tags w (metadata_path article_id) =
    if PyStr.contains (PyStr.lower query) (PyStr.lower (PyStr.read_text raw)) then
      keep ← match tags with
             | None => Ok true
             | Some filter => any_tag_in v filter
             end;
      if keep : bool then Some <$> summary article_id v else Ok None
    else Ok None.
Proof.
  intros [Ha Hm]. unfold visit.
  rewrite metadata_path_endswith, drop_last_metadata_path, Hm, Ha. done.
Qed.

(** In a searchable store a [*.json] file is the metadata of an article
    with a well-formed record. *)
Lemma searchable_article w filename :
  searchable w = true → is_Some (metadata w !! filename) →
  PyStr.endswith ".json" filename = true →
  ∃ raw v, article w (PyStr.drop_last 5 filename) raw v ∧ metadata_ok v = true.
Proof.
  intros Hs [mf Hm] Hjson.
  pose proof (searchable_file _ _ _ Hs Hm) as Hf.
  unfold file_searchable in Hf. cbn [fst snd] in Hf.
  rewrite Hjson in Hf. cbn [negb orb] in Hf.
  apply andb_true_iff in Hf as [Hdoc [raw Hraw]%bool_decide_eq_true].
  destruct mf as [v | junk]; [| done].
  exists raw, v. split; [split |]; try done.
  by rewrite metadata_path_drop_last.
Qed.

Lemma keep_decided tags v :
  metadata_ok v = true →
  ∃ keep, match tags with
          | None => Ok true
          | Some filter => any_tag_in v filter
          end = Ok keep ∧
          (keep = true ↔ tags_match tags v).
Proof.
  intros Hok. destruct tags as [filter |]; [| by exists true].
  destruct (summary_ok "" v Hok) as (_ & l & _ & _ & Hl & _).
  eexists. split; [by apply any_tag_in_list |].
  rewrite tag_overlap. unfold tags_match. split.
  - intros (tag & Hin & Hx). by exists tag, l.
  - intros (tag & l' & Hin & Hl' & Hx). rewrite Hl in Hl'.
    injection Hl' as <-. by exists tag.
Qed.

Lemma visit_searchable query tags w filename :
  searchable w = true → is_Some (metadata w !! filename) →
  ∃ o, visit query tags w filename = Ok o.
Proof.
  intros Hs Hm.
  destruct (PyStr.endswith ".json" filename) eqn:Hjson.
  - destruct (searchable_article _ _ Hs Hm Hjson) as (raw & v & Hart & Hok).
    rewrite <- (metadata_path_drop_last filename Hjson).
    rewrite (visit_article _ _ _ _ _ _ Hart).
    destruct (PyStr.contains _ _); [| eauto].
    destruct (keep_decided tags v Hok) as (keep & -> & _). simpl.
    destruct keep; [| eauto].
    destruct (summary_ok (PyStr.drop_last 5 filename) v Hok)
      as (? & ? & ? & ? & _ & ->).
    simpl. eauto.
  - unfold visit. rewrite Hjson. simpl. eauto.
Qed.

(** The pass over an article's metadata file appends a summary exactly
    when the query and the filter match. *)
Lemma visit_hit query tags w article_id raw v s :
  article w article_id raw v → metadata_ok v = true →
  visit query tags w (metadata_path article_id) = Ok (Some s) ↔
  summary article_id v = Ok s ∧ query_matches query raw ∧ tags_match tags v.
Proof.
  intros Hart Hok. rewrite (visit_article _ _ _ _ _ _ Hart).
  unfold query_matches. rewrite <- contains_spec.
  destruct (keep_decided tags v Hok) as (keep & -> & Hkeep).
  destruct (summary_ok article_id v Hok) as (? & ? & ? & ? & _ & Hsum).
  rewrite Hsum. simpl.
  destruct (PyStr.contains _ _); [| split; [done | by intros (_ & ? & _)]].
  destruct keep; simpl.
  - split.
    + intros [= <-]. split; [done |]. split; [done |]. by apply Hkeep.
    + by intros ([= <-] & _ & _).
  - split; [done |]. intros (_ & _ & Ht%Hkeep). done.
Qed.

Lemma search_articles_spec w query tags :
  searchable w = true →
  ∃ results,
    search_articles query tags w = (Ok results, w) ∧
    ∀ s, s ∈ results ↔
         ∃ article_id raw v,
           article w article_id raw v ∧ summary article_id v = Ok s ∧
           query_matches query raw ∧ tags_match tags v.
Proof.
  intros Hs. eexists. split.
  { apply search_articles_returns. intros f Hf. by apply visit_searchable. }
  intros s. unfold hits. rewrite list_elem_of_omap. split.
  - intros (filename & Hin%listdir_metadata_elem & Hv).
    destruct (visit query tags w filename) as [o |] eqn:Hvisit; [| done].
    subst o.
    destruct (PyStr.endswith ".json" filename) eqn:Hjson.
    + destruct (searchable_article _ _ Hs Hin Hjson) as (raw & v & Hart & Hok).
      rewrite <- (metadata_path_drop_last filename Hjson) in Hvisit.
      apply (visit_hit _ _ _ _ _ _ _ Hart Hok) in Hvisit.
      by exists (PyStr.drop_last 5 filename), raw, v.
    + unfold visit in Hvisit. rewrite Hjson in Hvisit. done.
  - intros (article_id & raw & v & Hart & Hsum & Hq & Ht).
    exists (metadata_path article_id). split.
    + apply listdir_metadata_elem. destruct Hart as [_ ->]. eauto.
    + assert (metadata_ok v = true) as Hok.
      { destruct (searchable_article w (metadata_path article_id) Hs)
          as (raw' & v' & [_ Hm'] & Hok').
        - destruct Hart as [_ ->]. eauto.
        - apply metadata_path_endswith.
        - rewrite metadata_path_drop_last in Hm' by apply metadata_path_endswith.
          destruct Hart as [_ Hm]. rewrite Hm in Hm'. by injection Hm' as <-. }
      assert (visit query tags w (metadata_path article_id) = Ok (Some s)) as ->
        by (by apply (visit_hit _ _ _ _ raw v)).
      done.
Qed.

(** C3, as the code has it: on a store where every [*.json] metadata file
    is a metadata record with a body file, [search_articles] returns a list
    in which the summary of an article occurs exactly when the lower-cased
    query is a substring of the lower-cased body text and, with a filter,
    some tag of the filter is an element of the article's tag list; every
    entry of the list is such a summary, with the five keys [article_id],
    [title], [tags], [created_at], [last_modified] and no body. *)
Theorem search_returns_matching_summaries w query tags :
  searchable w = true →
  ∃ results,
    search_articles query tags w = (Ok results, w) ∧
    (∀ article_id raw v,
       article w article_id raw v →
       ∃ s, summary article_id v = Ok s ∧
            (s ∈ results ↔ query_matches query raw ∧ tags_match tags v)) ∧
    (∀ s, s ∈ results →
       keys s = ["article_id"; "title"; "tags"; "created_at"; "last_modified"] ∧
       ∃ article_id raw v,
         article w article_id raw v ∧ summary article_id v = Ok s).
Proof.
  intros Hs.
  destruct (search_articles_spec w query tags Hs) as (results & Hrun & Hspec).
  exists results. split; [done |]. split.
  - intros article_id raw v Hart.
    destruct (searchable_article w (metadata_path article_id) Hs)
      as (raw' & v' & [_ Hm'] & Hok).
    { destruct Hart as [_ ->]. eauto. }
    { apply metadata_path_endswith. }
    rewrite metadata_path_drop_last in Hm' by apply metadata_path_endswith.
    assert (v' = v) as -> by (destruct Hart as [_ Hm]; congruence).
    destruct (summary_ok article_id v Hok) as (? & ? & ? & ? & _ & Hsum).
    eexists. split; [exact Hsum |].
    rewrite Hspec. split.
    + intros (id' & raw1 & v1 & [Ha1 Hm1] & Hsum1 & Hq & Ht).
      assert (id' = article_id) as -> by (by eapply summary_article_id).
      destruct Hart as [Ha Hm].
      assert (raw1 = raw) as -> by congruence.
      assert (v1 = v) as -> by congruence.
      done.
    + intros [Hq Ht]. by exists article_id, raw, v.
  - intros s (article_id & raw & v & Hart & Hsum & _)%Hspec. split.
    + by eapply summary_keys.
    + by exists article_id, raw, v.
Qed.

Lemma search_returns_matching_summaries_witness :
  ∃ results,
    search_articles "APOLLO" (Some ["food"; "space"]) pantry_world =
      (Ok results, pantry_world) ∧
    summary_of "apollo" "Apollo" ["space"] ∈ results.
Proof.
  destruct (search_returns_matching_summaries pantry_world "APOLLO"
              (Some ["food"; "space"]))
    as (results & Hrun & Hiff & _).
  - vm_compute. reflexivity.
  - exists results. split; [exact Hrun |].
    destruct (Hiff "apollo" (body_text "Apollo" "The Apollo program")
                (record_of "Apollo" ["space"]))
      as (s & Hsum & Hin).
    + split; vm_compute; reflexivity.
    + injection Hsum as <-. apply Hin. split.
      * exists "# ", (String PyStr.LF (String PyStr.LF "the apollo program")).
        vm_compute. reflexivity.
      * exists "space", [PStr "space"]. split; [| split].
        -- apply list_elem_of_In. simpl. tauto.
        -- reflexivity.
        -- apply list_elem_of_In. simpl. tauto.
Defined.

(** C3 as stated fails on a store with a metadata file whose body is
    gone: the article [apollo] matches the query, but the search raises and
    returns no summary at all. *)
Lemma search_match_not_returned :
  article orphan_world "apollo" (body_text "Apollo" "The Apollo program")
    (record_of "Apollo" ["space"]) ∧
  PyStr.contains (PyStr.lower "apollo")
    (PyStr.lower (PyStr.read_text (body_text "Apollo" "The Apollo program"))) = true ∧
  search_articles "apollo" None orphan_world = (Raise FileNotFoundError, orphan_world).
Proof. repeat split; vm_compute; reflexivity. Qed.

(** The search scenario of the documentation: [apollo] alone for the query
    [apollo], both articles for [a], none for [apollo] filtered by [food]. *)
Example search_scenario :
  (search_articles "apollo" None pantry_world).1 =
    Ok [summary_of "apollo" "Apollo" ["space"]] ∧
  (search_articles "a" None pantry_world).1 =
    Ok [summary_of "apollo" "Apollo" ["space"];
        summary_of "banana" "Banana" ["food"]] ∧
  (search_articles "apollo" (Some ["food"]) pantry_world).1 = Ok [].
Proof. repeat split; vm_compute; reflexivity. Qed.

(** C8, as the code has it: on a store where every [*.json] metadata file
    is a metadata record with a body file, [search_articles] with the
    empty query and no filter returns a list that holds the summary of
    every article. *)
Theorem search_empty_query_returns_all w :
  searchable w = true →
  ∃ results,
    search_articles "" None w = (Ok results, w) ∧
    ∀ article_id raw v,
      article w article_id raw v →
      ∃ s, summary article_id v = Ok s ∧ s ∈ results.
Proof.
  intros Hs.
  destruct (search_articles_spec w "" None Hs) as (results & Hrun & Hspec).
  exists results. split; [done |].
  intros article_id raw v Hart.
  destruct (searchable_article w (metadata_path article_id) Hs)
    as (raw' & v' & [_ Hm'] & Hok).
  { destruct Hart as [_ ->]. eauto. }
  { apply metadata_path_endswith. }
  rewrite metadata_path_drop_last in Hm' by apply metadata_path_endswith.
  assert (v' = v) as -> by (destruct Hart as [_ Hm]; congruence).
  destruct (summary_ok article_id v Hok) as (? & ? & ? & ? & _ & Hsum).
  eexists. split; [exact Hsum |].
  apply Hspec. exists article_id, raw, v.
  split; [done |]. split; [done |]. split; [| done].
  by exists "", (PyStr.lower (PyStr.read_text raw)).
Qed.

Lemma search_empty_query_returns_all_witness :
  ∃ results,
    search_articles "" None pantry_world = (Ok results, pantry_world) ∧
    summary_of "banana" "Banana" ["food"] ∈ results.
Proof.
  destruct (search_empty_query_returns_all pantry_world) as (results & Hrun & Hall).
  - vm_compute. reflexivity.
  - exists results. split; [exact Hrun |].
    destruct (Hall "banana" (body_text "Banana" "A yellow fruit")
                (record_of "Banana" ["food"]))
      as (s & Hsum & Hin).
    + split; vm_compute; reflexivity.
    + injection Hsum as <-. exact Hin.
Defined.

(** C8 as stated fails on a store with a metadata file whose body is
    gone: the search with the empty query raises, so the article [apollo]
    of that store gets no summary. *)
Lemma search_empty_query_raises :
  article orphan_world "apollo" (body_text "Apollo" "The Apollo program")
    (record_of "Apollo" ["space"]) ∧
  search_articles "" None orphan_world = (Raise FileNotFoundError, orphan_world).
Proof. repeat split; vm_compute; reflexivity. Qed.

(** ** The empty filter *)

Lemma visit_empty_filter query w filename :
  readable w = true → is_Some (metadata w !! filename) →
  visit query (Some []) w filename = Ok None.
Proof.
  intros Hr [mf Hm].
  pose proof (readable_file _ _ _ Hr Hm) as Hf.
  unfold file_readable in Hf. cbn [fst snd] in Hf. unfold visit.
  destruct (PyStr.endswith ".json" filename); [| done].
  cbn [negb orb] in Hf. cbn [negb]. rewrite Hm.
  apply andb_true_iff in Hf as [Hdoc [raw Hraw]%bool_decide_eq_true].
  destruct mf as [v | junk]; [| done].
  rewrite Hraw. by destruct (PyStr.contains _ _).
Qed.

Lemma hits_none query tags w filenames :
  (∀ filename, filename ∈ filenames → visit query tags w filename = Ok None) →
  hits query tags w filenames = [].
Proof.
  induction filenames as [| f rest IH]; intros Hnone; [done |].
  unfold hits. cbn [omap list_omap].
  rewrite (Hnone f) by (by left).
  apply IH. intros; apply Hnone; by right.
Qed.

(** C10, as the code has it: on a store where every [*.json] metadata
    file is a JSON document with a body file, [search_articles] with the
    empty list as filter returns the empty list, whatever the query and
    whatever the bodies hold. *)
Theorem search_empty_filter_returns_nothing w query :
  readable w = true →
  search_articles query (Some []) w = (Ok [], w).
Proof.
  intros Hr. rewrite search_articles_returns.
  - rewrite hits_none; [done |].
    intros f Hf%listdir_metadata_elem. by apply visit_empty_filter.
  - intros f Hf. exists None. by apply visit_empty_filter.
Qed.

Lemma search_empty_filter_returns_nothing_witness :
  (search_articles "apollo" None pantry_world).1 =
    Ok [summary_of "apollo" "Apollo" ["space"]] ∧
  search_articles "apollo" (Some []) pantry_world = (Ok [], pantry_world).
Proof.
  split.
  - vm_compute. reflexivity.
  - apply (search_empty_filter_returns_nothing pantry_world "apollo").
    vm_compute. reflexivity.
Defined.

(** C10 as stated fails on a store with a metadata file whose body is
    gone: with the empty filter the search raises instead of returning the
    empty list. *)
Lemma search_empty_filter_raises :
  search_articles "apollo" (Some []) orphan_world =
    (Raise FileNotFoundError, orphan_world) ∧
  search_articles "apollo" (Some []) orphan_world ≠ (Ok [], orphan_world).
Proof. split; [vm_compute; reflexivity | vm_compute; discriminate]. Qed.

(** A store that is not readable makes every search raise: the condition
    of the three statements above is the one under which the search
    returns at all for the empty filter. *)
Lemma search_unreadable_raises w query tags :
  readable w = false → ∃ e, search_articles query tags w = (Raise e, w).
Proof.
  unfold readable. intros Hr.
  assert (∃ entry, entry ∈ map_to_list (metadata w) ∧ file_readable w entry = false)
    as ([filename mf] & Hin & Hf).
  { induction (map_to_list (metadata w)) as [| x l IH]; [done |].
    simpl in Hr. apply andb_false_iff in Hr as [Hx | Hl].
    - exists x. split; [by left | done].
    - destruct (IH Hl) as (entry & Hin & Hf). exists entry. split; [by right | done]. }
  apply elem_of_map_to_list in Hin.
  unfold file_readable in Hf. cbn [fst snd] in Hf.
  apply orb_false_iff in Hf as [Hjson%negb_false_iff Hf].
  assert (∃ e, visit query tags w filename = Raise e) as [e He].
  { unfold visit. rewrite Hjson, Hin. cbn [negb].
    destruct mf as [v | junk]; [| eauto].
    cbn [andb] in Hf. apply bool_decide_eq_false in Hf.
    destruct (articles w !! _) as [raw |] eqn:Ha; [| eauto].
    exfalso. apply Hf. eauto. }
  eapply search_articles_raises; [| done]. eauto.
Qed.

(** * Further properties of the four methods *)

(** ** Reading never writes *)

Lemma search_loop_world query tags filenames results w :
  (search_loop query tags filenames results w).2 = w.
Proof.
  revert results. induction filenames as [| f rest IH]; intros results; [done |].
  rewrite search_loop_cons.
  by destruct (visit query tags w f) as [[s |] | e].
Qed.

(** X1: [search_articles] leaves the store and the clock as they were, whether
    it returns or raises. *)
Theorem search_articles_never_writes query tags w :
  (search_articles query tags w).2 = w.
Proof.
  unfold search_articles. erewrite bind_ok by reflexivity.
  apply search_loop_world.
Qed.

(** X2: [get_article] leaves the store and the clock as they were, whether it
    returns a record, returns [None] or raises. *)
Theorem get_article_never_writes article_id w :
  (get_article article_id w).2 = w.
Proof.
  unfold get_article. unfold_io.
  destruct (negb _); [done |].
  destruct (articles w !! _); [| done].
  by destruct (metadata w !! _) as [[v | junk] |].
Qed.

(** ** What the return values mean *)

Lemma exists_both_cases w article_id :
  (articles w !! article_path article_id = None ∨
   metadata w !! metadata_path article_id = None) ∨
  (∃ raw mf, articles w !! article_path article_id = Some raw ∧
             metadata w !! metadata_path article_id = Some mf).
Proof.
  destruct (articles w !! _) as [raw |]; [| by left; left].
  destruct (metadata w !! _) as [mf |]; [| by left; right].
  right. by exists raw, mf.
Qed.

(** With both files in place [update_article] runs its two steps. *)
Lemma update_article_present w article_id content tags :
  is_Some (articles w !! article_path article_id) →
  is_Some (metadata w !! metadata_path article_id) →
  update_article article_id content tags w =
    ((match content with
      | Some content =>
          raw ← IO.open_article (article_path article_id);
          title_line ← lift (first_item (PyStr.readlines raw));
          IO.write_article (article_path article_id)
            (title_line +:+ PyStr.NL +:+ content)
      | None => mret ()
      end;;
      match tags with
      | Some tags =>
          metadata ← IO.json_load (metadata_path article_id);
          metadata ← lift (setitem metadata "tags" (py_tags tags));
          t ← IO.now;
          metadata ← lift (setitem metadata "last_modified" (PStr (Clock.isoformat t)));
          IO.json_dump (metadata_path article_id) metadata
      | None => mret ()
      end;;
      mret true) : M bool) w.
Proof.
  intros Ha Hm. unfold update_article at 1. unfold_io.
  by rewrite both_exist.
Qed.

(** The whole effect of [update_article] on an article whose body is not
    empty and whose metadata is a JSON object. *)
Lemma update_article_run w article_id raw first rest d content tags :
  articles w !! article_path article_id = Some raw →
  metadata w !! metadata_path article_id = Some (Doc (PDict d)) →
  PyStr.readlines raw = first :: rest →
  update_article article_id content tags w =
    (Ok true,
     {| articles :=
          match content with
          | Some content =>
              <[article_path article_id := first +:+ PyStr.NL +:+ content]> (articles w)
          | None => articles w
          end;
        metadata :=
          match tags with
          | Some tags =>
              <[metadata_path article_id :=
                  Doc (PDict (retagged d tags (clock w (ticks w))))]> (metadata w)
          | None => metadata w
          end;
        clock := clock w;
        ticks := match tags with Some _ => S (ticks w) | None => ticks w end |}).
Proof.
  intros Ha Hm Hl.
  rewrite update_article_present by (rewrite ?Ha, ?Hm; eauto).
  unfold_io. destruct content as [content |], tags as [tags |]; cbn;
    repeat (first [rewrite Ha | rewrite Hl | rewrite Hm]; cbn);
    try done.
  by rewrite world_eta.
Qed.

(** X3: [update_article] returns [False] only for a missing file: with both
    files in place it returns [True] or raises. *)
Theorem update_false_means_missing w article_id content tags :
  (update_article article_id content tags w).1 = Ok false ↔
  articles w !! article_path article_id = None ∨
  metadata w !! metadata_path article_id = None.
Proof.
  split; [| intros H; by rewrite update_article_absent].
  destruct (exists_both_cases w article_id) as [H | (raw & mf & Ha & Hm)];
    [by intros _ |].
  rewrite update_article_present by (rewrite ?Ha, ?Hm; eauto).
  unfold_io. intros Hfalse. exfalso. revert Hfalse.
  destruct content as [content |], tags as [tags |]; cbn; rewrite ?Ha; cbn.
  - destruct (first_item _); cbn; [| done].
    rewrite Hm. destruct mf as [v | junk]; [| done].
    destruct (setitem v _ _) as [v1 |]; cbn; [| done].
    by destruct (setitem v1 _ _).
  - by destruct (first_item _).
  - rewrite Hm. destruct mf as [v | junk]; [| done].
    destruct (setitem v _ _) as [v1 |]; cbn; [| done].
    by destruct (setitem v1 _ _).
  - done.
Qed.




(** ** What a call leaves alone *)

(** X6: [update_article] touches no file but the two of its article, and never
    the clock's readings, whether it returns or raises. *)
Theorem update_article_frame w article_id content tags :
  let w' := (update_article article_id content tags w).2 in
  (∀ name, name ≠ article_path article_id → articles w' !! name = articles w !! name) ∧
  (∀ name, name ≠ metadata_path article_id → metadata w' !! name = metadata w !! name) ∧
  clock w' = clock w.
Proof.
  destruct (exists_both_cases w article_id) as [H | (raw & mf & Ha & Hm)].
  { by rewrite update_article_absent. }
  rewrite update_article_present by (rewrite ?Ha, ?Hm; eauto).
  unfold_io.
  destruct content as [content |], tags as [tags |]; cbn; rewrite ?Ha; cbn;
    (destruct (PyStr.readlines raw) as [| first rest]; cbn; rewrite ?Hm; cbn);
    (destruct mf as [[| | | | | | d] | junk]; cbn);
    (split; [| split]; [intros name Hne | intros name Hne | done]);
    by rewrite ?lookup_insert_ne.
Qed.

(** X7: A content-only update leaves the metadata directory and the clock
    untouched in every case: [last_modified] stays as it was. *)
Theorem update_content_leaves_metadata w article_id content :
  let w' := (update_article article_id (Some content) None w).2 in
  metadata w' = metadata w ∧ ticks w' = ticks w ∧ clock w' = clock w.
Proof.
  destruct (exists_both_cases w article_id) as [H | (raw & mf & Ha & Hm)].
  { by rewrite update_article_absent. }
  rewrite update_article_present by (rewrite ?Ha, ?Hm; eauto).
  unfold_io. cbn. rewrite Ha. cbn.
  by destruct (PyStr.readlines raw).
Qed.

(** X8: [create_article] touches no file but the two named after the
    identifier it returns, which it writes whether or not they existed. *)
Theorem create_article_frame w title content tags :
  let article_id := Clock.strftime_id (clock w (ticks w)) in
  let w' := (create_article title content tags w).2 in
  (create_article title content tags w).1 = Ok article_id ∧
  articles w' !! article_path article_id = Some (body_text title content) ∧
  (∀ name, name ≠ article_path article_id → articles w' !! name = articles w !! name) ∧
  (∀ name, name ≠ metadata_path article_id → metadata w' !! name = metadata w !! name).
Proof.
  rewrite create_article_run. cbn.
  split; [done |]. split; [apply lookup_insert_eq |].
  split; intros name Hne; by rewrite lookup_insert_ne.
Qed.



(** ** Content and tags in one call *)

(** X10: [update_article] is not atomic: given a content and tags for an article
    whose metadata file is not JSON, it raises [JSONDecodeError] after the
    body file has been rewritten. *)
Theorem update_raises_after_rewriting_body w article_id raw first rest junk content tags :
  articles w !! article_path article_id = Some raw →
  PyStr.readlines raw = first :: rest →
  metadata w !! metadata_path article_id = Some (NotJson junk) →
  update_article article_id (Some content) (Some tags) w =
    (Raise JSONDecodeError,
     {| articles :=
          <[article_path article_id := first +:+ PyStr.NL +:+ content]> (articles w);
        metadata := metadata w;
        clock := clock w;
        ticks := ticks w |}).
Proof.
  intros Ha Hl Hm.
  rewrite update_article_present by (rewrite ?Ha, ?Hm; eauto).
  unfold_io. cbn. rewrite Ha. cbn. rewrite Hl. cbn. by rewrite Hm.
Qed.

Lemma update_raises_after_rewriting_body_witness :
  update_article "note" (Some "new") (Some ["t"]) garbled_world =
    (Raise JSONDecodeError,
     {| articles :=
          <["note.md" := ("# Note" +:+ PyStr.NL) +:+ PyStr.NL +:+ "new"]>
            (articles garbled_world);
        metadata := metadata garbled_world;
        clock := tick_clock;
        ticks := 3 |}).
Proof.
  apply (update_raises_after_rewriting_body garbled_world "note"
           (body_text "Note" "text") ("# Note" +:+ PyStr.NL) [PyStr.NL; "text"]
           "{title:" "new" ["t"]).
  - vm_compute. reflexivity.
  - vm_compute. reflexivity.
  - vm_compute. reflexivity.
Defined.

(** X11: Giving content and tags in one call is the same as updating the
    content first and the tags next, in result and in store, in every
    case: missing files, a raise in either step, or success. *)
Theorem update_both_is_content_then_tags w article_id content tags :
  (update_article article_id (Some content) None ≫=
     λ _, update_article article_id None (Some tags)) w =
  update_article article_id (Some content) (Some tags) w.
Proof.
  destruct (exists_both_cases w article_id) as [H | (raw & mf & Ha & Hm)].
  { erewrite bind_ok by (by apply update_article_absent).
    by rewrite !update_article_absent. }
  rewrite (update_article_present w article_id (Some content) (Some tags))
    by (rewrite ?Ha, ?Hm; eauto).
  destruct (PyStr.readlines raw) as [| first rest] eqn:Hl.
  - erewrite bind_raise.
    + unfold_io. cbn. rewrite Ha. cbn. by rewrite Hl.
    + rewrite update_article_present by (rewrite ?Ha, ?Hm; eauto).
      unfold_io. cbn. rewrite Ha. cbn. by rewrite Hl.
  - erewrite bind_ok;
      [| eapply update_article_content_run; [done | rewrite Hm; eauto | done]].
    rewrite update_article_present; cbn;
      [| rewrite lookup_insert_eq; eauto | rewrite Hm; eauto].
    unfold_io. cbn. rewrite Ha. cbn. rewrite Hl. cbn. done.
Qed.

(** ** Updating twice, and reading back *)

Lemma readlines_first_no_cr raw first rest :
  PyStr.readlines raw = first :: rest → has_char PyStr.CR first = false.
Proof.
  intros (l & _ & Hshape & Hcr)%keepends_first.
  specialize (Hcr (universal_newlines_no_cr raw)).
  destruct Hshape as [-> | (-> & _ & _)]; [| done].
  rewrite has_char_app, Hcr. done.
Qed.

(** The text read from a body rewritten by [update_article]. *)
Lemma read_text_rewritten raw first rest content :
  PyStr.readlines raw = first :: rest →
  PyStr.read_text (first +:+ PyStr.NL +:+ content) =
    first +:+ PyStr.NL +:+ PyStr.read_text content.
Proof.
  intros Hcr%readlines_first_no_cr. unfold PyStr.read_text.
  by rewrite universal_newlines_app_plain.
Qed.

(** X12: For an article whose first line ends in a line feed, a second content
    update overrides the first: updating with one content and then with
    another leaves the store as the second update alone would. *)
Theorem update_content_last_wins w article_id raw first rest content1 content2 :
  articles w !! article_path article_id = Some raw →
  is_Some (metadata w !! metadata_path article_id) →
  PyStr.readlines raw = first :: rest →
  PyStr.endswith PyStr.NL first = true →
  (update_article article_id (Some content1) None ≫=
     λ _, update_article article_id (Some content2) None) w =
  update_article article_id (Some content2) None w.
Proof.
  intros Ha Hm Hl He.
  destruct (readlines_first _ _ _ Hl He) as (l & -> & Hlf & Hcr).
  erewrite bind_ok by (by eapply update_article_content_run).
  erewrite (update_article_content_run _ article_id _ _ _ content2);
    [| apply lookup_insert_eq | done | by apply readlines_rewritten].
  erewrite (update_article_content_run w) by done.
  cbn. by rewrite insert_insert_eq.
Qed.

Lemma update_content_last_wins_witness :
  (update_article "apollo" (Some "draft") None ≫=
     λ _, update_article "apollo" (Some "final") None) apollo_world =
  update_article "apollo" (Some "final") None apollo_world.
Proof.
  apply (update_content_last_wins apollo_world "apollo"
           (body_text "Apollo" "The Apollo program")
           ("# Apollo" +:+ PyStr.NL) [PyStr.NL; "The Apollo program"]
           "draft" "final").
  - vm_compute. reflexivity.
  - vm_compute. eexists. reflexivity.
  - vm_compute. reflexivity.
  - vm_compute. reflexivity.
Defined.

(** X13: After a tags update of an article whose metadata is a JSON object,
    [get_article] returns the new tags, with the body text unchanged. *)
Theorem get_after_update_tags w article_id raw d tags :
  article w article_id raw (PDict d) →
  ∃ r w',
    (update_article article_id None (Some tags) ≫= λ _, get_article article_id) w
      = (Ok r, w') ∧
    getitem r "content" = Ok (PStr (PyStr.read_text raw)) ∧
    (getitem r "metadata" ≫= λ m, getitem m "tags") = Ok (py_tags tags).
Proof.
  intros [Ha Hm].
  destruct (PyStr.readlines raw) as [| first rest] eqn:Hl.
  - eexists _, _. split; [| split].
    + erewrite bind_ok.
      2: { rewrite update_article_present by (rewrite ?Ha, ?Hm; eauto).
           unfold_io. cbn. rewrite Hm. cbn. reflexivity. }
      apply get_article_present. split; cbn; [done | apply lookup_insert_eq].
    + done.
    + change (getitem (PDict (retagged d tags (clock w (ticks w)))) "tags"
              = Ok (py_tags tags)).
      unfold getitem, retagged. by rewrite dict_get_set_ne, dict_get_set_eq.
  - eexists _, _. split; [| split].
    + erewrite bind_ok by (by eapply (update_article_run _ _ _ _ _ _ None (Some tags))).
      apply get_article_present. split; cbn; [done | apply lookup_insert_eq].
    + done.
    + change (getitem (PDict (retagged d tags (clock w (ticks w)))) "tags"
              = Ok (py_tags tags)).
      unfold getitem, retagged. by rewrite dict_get_set_ne, dict_get_set_eq.
Qed.

Lemma get_after_update_tags_witness :
  ∃ r w',
    (update_article "apollo" None (Some ["moon"]) ≫= λ _, get_article "apollo")
      apollo_world = (Ok r, w') ∧
    getitem r "content" =
      Ok (PStr (PyStr.read_text (body_text "Apollo" "The Apollo program"))) ∧
    (getitem r "metadata" ≫= λ m, getitem m "tags") = Ok (py_tags ["moon"]).
Proof.
  apply (get_after_update_tags apollo_world "apollo"
           (body_text "Apollo" "The Apollo program")
           [("title", PStr "Apollo");
            ("created_at", PStr "2024-05-17T09:30:00");
            ("tags", py_tags ["space"]);
            ("last_modified", PStr "2024-05-17T09:30:00")] ["moon"]).
  split; vm_compute; reflexivity.
Defined.

(** X14: After a content update of an article with a body that is not empty,
    [get_article] returns the old first line, a line feed and the new
    content as read in text mode, and the metadata as it was. *)
Theorem get_after_update_content w article_id raw first rest v content :
  article w article_id raw v →
  PyStr.readlines raw = first :: rest →
  ∃ w',
    (update_article article_id (Some content) None ≫= λ _, get_article article_id) w
      = (Ok (PDict [("content",
                     PStr (first +:+ PyStr.NL +:+ PyStr.read_text content));
                    ("metadata", v)]), w').
Proof.
  intros [Ha Hm] Hl. eexists.
  erewrite bind_ok
    by (eapply update_article_content_run; [done | rewrite Hm; eauto | done]).
  erewrite get_article_present; [| split; cbn; [apply lookup_insert_eq | done]].
  by erewrite read_text_rewritten.
Qed.

Lemma get_after_update_content_witness :
  ∃ w',
    (update_article "note" (Some "x") None ≫= λ _, get_article "note") bare_world
      = (Ok (PDict [("content", PStr ("abc" +:+ PyStr.NL +:+ PyStr.read_text "x"));
                    ("metadata", record_of "abc" [])]), w').
Proof.
  apply (get_after_update_content bare_world "note" "abc" "abc" []
           (record_of "abc" []) "x").
  - split; vm_compute; reflexivity.
  - vm_compute. reflexivity.
Defined.

(** ** Stores built through the interface *)

Lemma searchable_intro w :
  (∀ filename mf, metadata w !! filename = Some mf →
                  file_searchable w (filename, mf) = true) →
  searchable w = true.
Proof.
  intros H. unfold searchable. apply forallb_forall.
  intros [filename mf] Hin%list_elem_of_In%elem_of_map_to_list. by apply H.
Qed.

Lemma lined_file w name raw :
  lined w = true → articles w !! name = Some raw → has_char PyStr.LF raw = true.
Proof.
  unfold lined. rewrite forallb_forall. intros Hall Ha.
  apply (Hall (name, raw)), list_elem_of_In. by apply elem_of_map_to_list.
Qed.

Lemma lined_intro w :
  (∀ name raw, articles w !! name = Some raw → has_char PyStr.LF raw = true) →
  lined w = true.
Proof.
  intros H. unfold lined. apply forallb_forall.
  intros [name raw] Hin%list_elem_of_In%elem_of_map_to_list. by eapply H.
Qed.

Lemma sound_parts w : sound w = true ↔ searchable w = true ∧ lined w = true.
Proof. unfold sound. apply andb_true_iff. Qed.

(** A file stays searchable when body files are added or rewritten. *)
Lemma file_searchable_mono w w' entry :
  (∀ name, is_Some (articles w !! name) → is_Some (articles w' !! name)) →
  file_searchable w entry = true → file_searchable w' entry = true.
Proof.
  intros Hmono. unfold file_searchable.
  destruct (negb _); [done |]. cbn [orb].
  intros [Hdoc Hbody%bool_decide_eq_true]%andb_true_iff.
  rewrite Hdoc. cbn [andb]. apply bool_decide_eq_true. by apply Hmono.
Qed.

Lemma sound_write_article a m clk n clk' n' name text :
  sound {| articles := a; metadata := m; clock := clk; ticks := n |} = true →
  has_char PyStr.LF text = true →
  sound {| articles := <[name := text]> a; metadata := m;
           clock := clk'; ticks := n' |} = true.
Proof.
  intros [Hs Hl]%sound_parts Htext. apply sound_parts. split.
  - apply searchable_intro. cbn. intros filename mf Hm.
    eapply file_searchable_mono; [| by apply (searchable_file _ _ _ Hs)].
    cbn. intros name' [raw Hraw].
    destruct (decide (name = name')) as [-> | Hne].
    + rewrite lookup_insert_eq. eauto.
    + rewrite lookup_insert_ne by done. eauto.
  - apply lined_intro. cbn. intros name' raw.
    destruct (decide (name = name')) as [-> | Hne].
    + rewrite lookup_insert_eq. by intros [= <-].
    + rewrite lookup_insert_ne by done. by apply (lined_file _ _ _ Hl).
Qed.

Lemma sound_json_dump a m clk n clk' n' article_id v :
  sound {| articles := a; metadata := m; clock := clk; ticks := n |} = true →
  metadata_ok v = true →
  is_Some (a !! article_path article_id) →
  sound {| articles := a; metadata := <[metadata_path article_id := Doc v]> m;
           clock := clk'; ticks := n' |} = true.
Proof.
  intros [Hs Hl]%sound_parts Hok Hbody. apply sound_parts. split.
  - apply searchable_intro. cbn. intros filename mf.
    destruct (decide (metadata_path article_id = filename)) as [<- | Hne].
    + rewrite lookup_insert_eq. intros [= <-].
      unfold file_searchable. cbn [fst snd].
      rewrite metadata_path_endswith, drop_last_metadata_path, Hok. cbn.
      by apply bool_decide_eq_true.
    + rewrite lookup_insert_ne by done. intros Hm.
      eapply file_searchable_mono; [| by apply (searchable_file _ _ _ Hs)].
      done.
  - apply lined_intro. cbn. intros name raw. by apply (lined_file _ _ _ Hl).
Qed.

Lemma metadata_ok_retagged d tags t :
  metadata_ok (PDict d) = true → metadata_ok (PDict (retagged d tags t)) = true.
Proof.
  intros (d0 & title & l & c & m & [= <-] & Ht & _ & Hc & _)%metadata_ok_fields.
  unfold metadata_ok, retagged.
  rewrite !(dict_get_set_ne "last_modified" "title"),
    !(dict_get_set_ne "tags" "title"), Ht by done.
  rewrite (dict_get_set_ne "last_modified" "tags"), dict_get_set_eq by done.
  rewrite !(dict_get_set_ne "last_modified" "created_at"),
    !(dict_get_set_ne "tags" "created_at"), Hc by done.
  rewrite dict_get_set_eq. reflexivity.
Qed.

Lemma sound_empty clk : sound (empty_world clk) = true.
Proof. reflexivity. Qed.

Lemma sound_create w title content tags :
  sound w = true → sound (create_article title content tags w).2 = true.
Proof.
  intros Hs. rewrite create_article_run. cbn [snd].
  rewrite <- (world_eta w) in Hs.
  eapply (sound_json_dump _ _ (clock w) (ticks w)).
  - eapply sound_write_article; [exact Hs | apply created_body_has_lf].
  - reflexivity.
  - rewrite lookup_insert_eq. eauto.
Qed.

(** In a sound store an article has a first line and a metadata object. *)
Lemma sound_article w article_id raw mf :
  sound w = true →
  articles w !! article_path article_id = Some raw →
  metadata w !! metadata_path article_id = Some mf →
  ∃ first rest d,
    PyStr.readlines raw = first :: rest ∧
    PyStr.endswith PyStr.NL first = true ∧
    mf = Doc (PDict d) ∧ metadata_ok (PDict d) = true.
Proof.
  intros [Hs Hl]%sound_parts Ha Hm.
  destruct (readlines_terminated raw (lined_file _ _ _ Hl Ha))
    as (first & rest & Hlines & He).
  destruct (searchable_article w (metadata_path article_id) Hs)
    as (raw' & v & [_ Hm'] & Hok).
  { rewrite Hm. eauto. }
  { apply metadata_path_endswith. }
  rewrite metadata_path_drop_last in Hm' by apply metadata_path_endswith.
  assert (mf = Doc v) as -> by congruence.
  destruct (metadata_ok_fields v Hok) as (d & _ & _ & _ & _ & -> & _).
  by exists first, rest, d.
Qed.

Lemma sound_update w article_id content tags :
  sound w = true →
  ∃ b, (update_article article_id content tags w).1 = Ok b ∧
       sound (update_article article_id content tags w).2 = true.
Proof.
  intros Hs.
  destruct (exists_both_cases w article_id) as [H | (raw & mf & Ha & Hm)].
  { rewrite update_article_absent by done. by exists false. }
  destruct (sound_article _ _ _ _ Hs Ha Hm) as (first & rest & d & Hl & _ & -> & Hok).
  rewrite (update_article_run _ _ _ _ _ _ content tags Ha Hm Hl).
  exists true. split; [done |]. cbn [snd].
  pose proof Hs as Hs'. rewrite <- (world_eta w) in Hs'.
  destruct content as [content |], tags as [tags |].
  - eapply (sound_json_dump _ _ (clock w) (ticks w)).
    + eapply sound_write_article; [exact Hs' | apply updated_body_has_lf].
    + by apply metadata_ok_retagged.
    + rewrite lookup_insert_eq. eauto.
  - eapply sound_write_article; [exact Hs' | apply updated_body_has_lf].
  - eapply sound_json_dump; [exact Hs' | by apply metadata_ok_retagged |].
    rewrite Ha. eauto.
  - by rewrite world_eta.
Qed.

Lemma sound_perform w c : sound w = true → sound (perform w c) = true.
Proof.
  intros Hs. destruct c as [title content tags | article_id content tags]; cbn.
  - by apply sound_create.
  - by destruct (sound_update w article_id content tags Hs) as (b & _ & H).
Qed.

Lemma sound_history w calls : sound w = true → sound (history w calls) = true.
Proof.
  revert w. induction calls as [| c calls IH]; intros w Hs; [done |].
  cbn. apply IH. by apply sound_perform.
Qed.

(** X15: Whatever [create_article] and [update_article] calls are made on an
    empty store, with whatever clock, the store stays searchable: every
    metadata file is a record with its body file, and every body starts
    with a line that ends in a line feed. *)
Theorem interface_keeps_store_sound clk calls :
  let w := history (empty_world clk) calls in
  searchable w = true ∧
  ∀ name raw, articles w !! name = Some raw →
    ∃ first rest, PyStr.readlines raw = first :: rest ∧
                  PyStr.endswith PyStr.NL first = true.
Proof.
  cbn. pose proof (sound_history _ calls (sound_empty clk)) as [Hs Hl]%sound_parts.
  split; [done |]. intros name raw Ha.
  apply readlines_terminated. by eapply lined_file.
Qed.

(** X16: On a store built from an empty one by [create_article] and
    [update_article] calls, no method raises: [search_articles] returns a
    list, [get_article] a record or [None], [update_article] a flag and
    [create_article] an identifier. *)
Theorem interface_never_raises clk calls :
  let w := history (empty_world clk) calls in
  (∀ query tags, ∃ results, search_articles query tags w = (Ok results, w)) ∧
  (∀ article_id, ∃ r, get_article article_id w = (Ok r, w)) ∧
  (∀ article_id content tags,
     ∃ b, (update_article article_id content tags w).1 = Ok b) ∧
  (∀ title content tags,
     ∃ article_id, (create_article title content tags w).1 = Ok article_id).
Proof.
  cbn. pose proof (sound_history _ calls (sound_empty clk)) as Hs.
  set (w := history (empty_world clk) calls) in *.
  split; [| split; [| split]].
  - intros query tags. apply sound_parts in Hs as [Hs _].
    destruct (search_articles_spec w query tags Hs) as (results & Hrun & _). eauto.
  - intros article_id.
    destruct (exists_both_cases w article_id) as [H | (raw & mf & Ha & Hm)].
    + rewrite get_article_absent by done. eauto.
    + destruct (sound_article _ _ _ _ Hs Ha Hm) as (_ & _ & d & _ & _ & -> & _).
      erewrite get_article_present by done. eauto.
  - intros article_id content tags.
    destruct (sound_update w article_id content tags Hs) as (b & Hb & _). eauto.
  - intros title content tags. rewrite create_article_run. eauto.
Qed.



(** ** More on [search_articles] *)

Lemma search_loop_returned query tags filenames results w out w' :
  search_loop query tags filenames results w = (Ok out, w') →
  out = (results ++ hits query tags w filenames)%list.
Proof.
  revert results. induction filenames as [| f rest IH]; intros results.
  - cbn. intros [= <- _]. by rewrite app_nil_r.
  - rewrite search_loop_cons. unfold hits. cbn [omap list_omap].
    destruct (visit query tags w f) as [[s |] | e]; [| | done].
    + intros ->%IH. by rewrite <- app_assoc.
    + apply IH.
Qed.

Lemma search_articles_returned query tags w out :
  (search_articles query tags w).1 = Ok out →
  out = hits query tags w (map_to_list (metadata w)).*1.
Proof.
  unfold search_articles. erewrite bind_ok by reflexivity.
  destruct (search_loop _ _ _ _ _) as [r w'] eqn:E. cbn. intros ->.
  by apply search_loop_returned in E.
Qed.

(** A pass that appends a summary is over a [*.json] file, and the summary
    is that of the identifier cut from its name. *)
Lemma visit_some query tags w filename s :
  visit query tags w filename = Ok (Some s) →
  PyStr.endswith ".json" filename = true ∧
  ∃ v, summary (PyStr.drop_last 5 filename) v = Ok s.
Proof.
  unfold visit. destruct (PyStr.endswith ".json" filename); [| done]. cbn [negb].
  destruct (metadata w !! filename) as [[v | junk] |]; [| done | done].
  destruct (articles w !! _) as [raw |]; [| done].
  destruct (PyStr.contains _ _); [| done].
  destruct (match tags with Some _ => _ | None => _ end) as [[|] | e]; cbn; try done.
  destruct (summary _ v) as [s' |] eqn:Hs; cbn; [| done].
  intros [= <-]. eauto.
Qed.

Lemma visit_some_inj query tags w f1 f2 s :
  visit query tags w f1 = Ok (Some s) → visit query tags w f2 = Ok (Some s) →
  f1 = f2.
Proof.
  intros (Hj1 & v1 & Hs1)%visit_some (Hj2 & v2 & Hs2)%visit_some.
  rewrite <- (metadata_path_drop_last f1 Hj1), <- (metadata_path_drop_last f2 Hj2).
  f_equal. by eapply summary_article_id.
Qed.

Lemma hits_elem query tags w filenames s :
  s ∈ hits query tags w filenames ↔
  ∃ f, f ∈ filenames ∧ visit query tags w f = Ok (Some s).
Proof.
  unfold hits. rewrite list_elem_of_omap. split.
  - intros (f & Hin & Hv). exists f. split; [done |].
    by destruct (visit query tags w f) as [[s' |] | e]; simplify_eq.
  - intros (f & Hin & Hv). exists f. by rewrite Hv.
Qed.

Lemma hits_NoDup query tags w filenames :
  NoDup filenames → NoDup (hits query tags w filenames).
Proof.
  induction 1 as [| f rest Hnotin Hnd IH]; [constructor |].
  unfold hits. cbn [omap list_omap].
  destruct (visit query tags w f) as [[s |] | e] eqn:Hv; try done.
  constructor; [| done].
  intros (f' & Hin & Hv')%hits_elem.
  by rewrite (visit_some_inj _ _ _ _ _ _ Hv Hv') in Hnotin.
Qed.

(** X18: A list returned by [search_articles] holds no summary twice: each
    article is reported at most once. *)
Theorem search_returns_no_duplicates query tags w results :
  (search_articles query tags w).1 = Ok results → NoDup results.
Proof.
  intros ->%search_articles_returned.
  apply hits_NoDup, NoDup_fst_map_to_list.
Qed.

Lemma search_returns_no_duplicates_witness :
  NoDup [summary_of "apollo" "Apollo" ["space"];
         summary_of "banana" "Banana" ["food"]].
Proof.
  apply (search_returns_no_duplicates "a" None pantry_world).
  vm_compute. reflexivity.
Defined.

(** A pass that keeps an article under a filter keeps it without one. *)
Lemma visit_filter_weaken query filter w filename s :
  visit query (Some filter) w filename = Ok (Some s) →
  visit query None w filename = Ok (Some s).
Proof.
  unfold visit. destruct (negb _); [done |].
  destruct (metadata w !! filename) as [[v | junk] |]; [| done | done].
  destruct (articles w !! _) as [raw |]; [| done].
  destruct (PyStr.contains _ _); [| done].
  by destruct (any_tag_in v filter) as [[|] | e].
Qed.

Lemma hits_filter_sublist query filter w filenames :
  (∀ f, f ∈ filenames → ∃ o, visit query None w f = Ok o) →
  sublist (hits query (Some filter) w filenames) (hits query None w filenames).
Proof.
  induction filenames as [| f rest IH]; intros Hok; [constructor |].
  unfold hits. cbn [omap list_omap].
  assert (IH' := IH (λ f' Hf', Hok f' (list_elem_of_further _ _ _ Hf'))).
  destruct (visit query (Some filter) w f) as [[s |] | e] eqn:Hv.
  - rewrite (visit_filter_weaken _ _ _ _ _ Hv). by constructor.
  - destruct (visit query None w f) as [[s |] | e]; [by constructor | done | done].
  - destruct (visit query None w f) as [[s |] | e']; [by constructor | done | done].
Qed.

(** X19: On a searchable store a tags filter only removes entries: the list
    returned with a filter is a sublist, in the same order, of the list
    returned without one. *)
Theorem search_filter_only_removes w query filter :
  searchable w = true →
  ∃ filtered unfiltered,
    search_articles query (Some filter) w = (Ok filtered, w) ∧
    search_articles query None w = (Ok unfiltered, w) ∧
    sublist filtered unfiltered.
Proof.
  intros Hs. eexists _, _. split; [| split].
  - apply search_articles_returns. intros f Hf. by apply visit_searchable.
  - apply search_articles_returns. intros f Hf. by apply visit_searchable.
  - apply hits_filter_sublist.
    intros f Hf%listdir_metadata_elem. by apply visit_searchable.
Qed.

Lemma search_filter_only_removes_witness :
  ∃ filtered unfiltered,
    search_articles "a" (Some ["food"]) pantry_world = (Ok filtered, pantry_world) ∧
    search_articles "a" None pantry_world = (Ok unfiltered, pantry_world) ∧
    sublist filtered unfiltered.
Proof.
  apply (search_filter_only_removes pantry_world "a" ["food"]).
  vm_compute. reflexivity.
Defined.

(** X20: The letter case of the query does not matter: two queries with the
    same lower-case form give the same outcome on every store. *)
Theorem search_ignores_query_case w query1 query2 tags :
  PyStr.lower query1 = PyStr.lower query2 →
  search_articles query1 tags w = search_articles query2 tags w.
Proof.
  intros Hq. unfold search_articles. erewrite !bind_ok by reflexivity.
  generalize (@nil pyval) as results.
  induction (map_to_list (metadata w)).*1 as [| f rest IH]; intros results; [done |].
  rewrite !search_loop_cons.
  assert (visit query1 tags w f = visit query2 tags w f) as ->
    by (unfold visit; by rewrite Hq).
  by destruct (visit query2 tags w f) as [[s |] | e].
Qed.

Lemma search_ignores_query_case_witness :
  search_articles "APOLLO" (Some ["space"]) pantry_world =
  search_articles "Apollo" (Some ["space"]) pantry_world.
Proof.
  apply (search_ignores_query_case pantry_world "APOLLO" "Apollo" (Some ["space"])).
  vm_compute. reflexivity.
Defined.

Lemma lower_app a b : PyStr.lower (a +:+ b) = PyStr.lower a +:+ PyStr.lower b.
Proof.
  induction a as [| c a IH]; [done |].
  rewrite str_app_cons. cbn [PyStr.lower]. by rewrite IH, str_app_cons.
Qed.

(** X21: On a sound store, an article created with a title free of carriage
    returns is found at once by a search for its title: the list returned
    holds its summary. *)
Theorem search_finds_created_title w title content tags :
  sound w = true →
  has_char PyStr.CR title = false →
  let article_id := Clock.strftime_id (clock w (ticks w)) in
  let w' := (create_article title content tags w).2 in
  ∃ results,
    search_articles title None w' = (Ok results, w') ∧
    PDict [("article_id", PStr article_id);
           ("title", PStr title);
           ("tags", py_tags tags);
           ("created_at", PStr (Clock.isoformat (clock w (S (ticks w)))));
           ("last_modified", PStr (Clock.isoformat (clock w (S (S (ticks w))))))]
      ∈ results.
Proof.
  intros Hs Hcr. cbn zeta.
  pose proof (sound_create w title content tags Hs) as [Hs' _]%sound_parts.
  destruct (search_articles_spec _ title None Hs') as (results & Hrun & Hspec).
  exists results. split; [done |]. apply Hspec.
  rewrite create_article_run. cbn [snd].
  eexists (Clock.strftime_id (clock w (ticks w))), (body_text title content), _.
  split; [split; cbn; apply lookup_insert_eq |].
  split; [reflexivity |]. split; [| done].
  exists "# ", (PyStr.lower (PyStr.universal_newlines
                              (PyStr.NL +:+ PyStr.NL +:+ content))).
  unfold PyStr.read_text, body_text.
  rewrite <- (str_app_assoc "# " title).
  rewrite universal_newlines_app_plain by (by rewrite has_char_app, Hcr).
  by rewrite !lower_app.
Qed.

Lemma search_finds_created_title_witness :
  ∃ results,
    search_articles "Gemini" None (create_article "Gemini" "Two seats" ["space"] pantry_world).2
      = (Ok results, (create_article "Gemini" "Two seats" ["space"] pantry_world).2) ∧
    PDict [("article_id", PStr (Clock.strftime_id (tick_clock 6)));
           ("title", PStr "Gemini");
           ("tags", py_tags ["space"]);
           ("created_at", PStr (Clock.isoformat (tick_clock 7)));
           ("last_modified", PStr (Clock.isoformat (tick_clock 8)))]
      ∈ results.
Proof.
  apply (search_finds_created_title pantry_world "Gemini" "Two seats" ["space"]).
  - vm_compute. reflexivity.
  - vm_compute. reflexivity.
Defined.

(** ** Construction *)

(** X22: [__init__] fails exactly when the base path, [articles] or [metadata]
    is a regular file; when it succeeds both directories exist and hold the
    files they held before, none if they were missing. *)
Theorem init_outcome d :
  ((∃ e, (__init__ d).1 = Some e) ↔
   d = BaseIsFile ∨
   ∃ a m, d = Base a m ∧ (a = RegularFile ∨ m = RegularFile)) ∧
  ((__init__ d).1 = None →
   (__init__ d).2 = Base (Directory (articles_of d)) (Directory (metadata_of d))).
Proof.
  destruct d as [| | [| | a] [| | m]]; cbn; (split; [split |]); try done;
    try (intros [e ?]; done);
    try (intros [? | (a' & m' & ? & [? | ?])]; simplify_eq; eauto; done);
    try (intros _; eauto 10; done).
Qed.

(** X23: Running [__init__] again gives the same outcome and changes nothing
    more: an initialised store, with its files, is left as it is. *)
Theorem init_idempotent d :
  __init__ (__init__ d).2 = __init__ d.
Proof. by destruct d as [| | [| | a] [| | m]]. Qed.

(** ** Files of the metadata directory that are not metadata *)

Lemma search_returned_visits query tags w out :
  (search_articles query tags w).1 = Ok out →
  ∀ f, is_Some (metadata w !! f) → ∃ o, visit query tags w f = Ok o.
Proof.
  intros Hout f Hf.
  destruct (visit query tags w f) as [o | e] eqn:Hv; [eauto |].
  destruct (search_articles_raises _ _ _ _ _ Hf Hv) as [e' He].
  rewrite He in Hout. done.
Qed.

Lemma visit_beside query tags w name mf f :
  PyStr.endswith ".json" name = false →
  visit query tags
    {| articles := articles w; metadata := <[name := mf]> (metadata w);
       clock := clock w; ticks := ticks w |} f =
  if decide (f = name) then Ok None else visit query tags w f.
Proof.
  intros Hname. unfold visit. cbn [articles metadata].
  destruct (decide (f = name)) as [-> | Hne].
  - by rewrite Hname.
  - by rewrite lookup_insert_ne.
Qed.

(** X24: A file added to the metadata directory under a name that does not end
    in [.json] does not change what a search returns: the same summaries,
    possibly listed in another order. *)
Theorem search_ignores_other_files w name mf query tags results :
  PyStr.endswith ".json" name = false →
  metadata w !! name = None →
  (search_articles query tags w).1 = Ok results →
  ∃ results',
    (search_articles query tags
       {| articles := articles w; metadata := <[name := mf]> (metadata w);
          clock := clock w; ticks := ticks w |}).1 = Ok results' ∧
    results' ≡ₚ results.
Proof.
  intros Hname Hfresh Hout.
  pose proof (search_returned_visits _ _ _ _ Hout) as Hok.
  apply search_articles_returned in Hout as ->.
  set (w' := {| articles := articles w; metadata := <[name := mf]> (metadata w);
                clock := clock w; ticks := ticks w |}).
  eexists. split.
  - rewrite search_articles_returns; [reflexivity |].
    intros f Hf. unfold w'. rewrite visit_beside by done.
    destruct (decide (f = name)) as [-> | Hne]; [eauto |].
    apply Hok. cbn in Hf. by rewrite lookup_insert_ne in Hf.
  - cbn [metadata w']. unfold hits.
    rewrite (map_to_list_insert _ _ _ Hfresh). cbn [fmap list_fmap omap list_omap fst].
    fold w'. unfold w' at 1. rewrite visit_beside by done.
    rewrite decide_True by done.
    erewrite list_omap_ext; [reflexivity |].
    apply Forall2_same_length_lookup_2; [done |].
    intros i f f' Hf Hf'. assert (f' = f) as -> by congruence.
    unfold w'. rewrite visit_beside by done.
    rewrite decide_False; [done |].
    intros ->. apply list_elem_of_lookup_2, listdir_metadata_elem in Hf.
    rewrite Hfresh in Hf. by destruct Hf.
Qed.

Lemma search_ignores_other_files_witness :
  ∃ results',
    (search_articles "a" None
       {| articles := articles pantry_world;
          metadata := <["README.txt" := NotJson "notes"]> (metadata pantry_world);
          clock := clock pantry_world; ticks := ticks pantry_world |}).1
      = Ok results' ∧
    results' ≡ₚ [summary_of "apollo" "Apollo" ["space"];
                 summary_of "banana" "Banana" ["food"]].
Proof.
  apply (search_ignores_other_files pantry_world "README.txt" (NotJson "notes")
           "a" None).
  - vm_compute. reflexivity.
  - vm_compute. reflexivity.
  - vm_compute. reflexivity.
Defined.
